(** * The wasm memory tracker and backing-store allocator of
      [src/wasm/wasm-memory.cc], as a shallow embedding.

    Sizes ([size_t], [uint32_t], [uint64_t]) are integers of [Z] with the
    wrap-around of their width written out; pointers ([void*]) are
    addresses of [Z] with [nullptr = 0]; the registry [allocations_] is a
    finite map; the code's sequencing, its [CHECK]s and its [DCHECK]s are
    kept in a state-and-abort monad. *)

From Stdlib Require Import ZArith Lia Bool List.
From stdpp Require Import base option gmap.
Import ListNotations.

Local Open Scope Z_scope.

(** ** Build configuration and flags *)

(** What the preprocessor and the command line fix for one build:
    [V8_TARGET_ARCH_64_BIT] (otherwise the 32-bit branch of every [#if]),
    [DEBUG] (whether [DCHECK]s are compiled in), the two [FLAG_]s the file
    reads, and the two platform quantities the guard-region branch uses
    ([kWasmMaxHeapOffset] from wasm-limits.h and [CommitPageSize()]),
    which are declared outside this file and taken as parameters. *)
Record Config := {
  V8_TARGET_ARCH_64_BIT : bool;
  DEBUG : bool;
  FLAG_wasm_max_mem_pages : Z;
  FLAG_experimental_wasm_threads : bool;
  kWasmMaxHeapOffset : Z;
  CommitPageSize : Z
}.

(** The same build with [DCHECK]s compiled in, resp. out. *)
Definition debug_build (cfg : Config) : Config :=
  {| V8_TARGET_ARCH_64_BIT := V8_TARGET_ARCH_64_BIT cfg;
     DEBUG := true;
     FLAG_wasm_max_mem_pages := FLAG_wasm_max_mem_pages cfg;
     FLAG_experimental_wasm_threads := FLAG_experimental_wasm_threads cfg;
     kWasmMaxHeapOffset := kWasmMaxHeapOffset cfg;
     CommitPageSize := CommitPageSize cfg |}.

Definition release_build (cfg : Config) : Config :=
  {| V8_TARGET_ARCH_64_BIT := V8_TARGET_ARCH_64_BIT cfg;
     DEBUG := false;
     FLAG_wasm_max_mem_pages := FLAG_wasm_max_mem_pages cfg;
     FLAG_experimental_wasm_threads := FLAG_experimental_wasm_threads cfg;
     kWasmMaxHeapOffset := kWasmMaxHeapOffset cfg;
     CommitPageSize := CommitPageSize cfg |}.

(** ** Machine integers *)

(** [wrap bits x]: the value a [bits]-wide unsigned integer holds after
    being assigned [x]. *)
Definition wrap (bits x : Z) : Z := x mod 2 ^ bits.

Definition size_t_bits (cfg : Config) : Z :=
  if V8_TARGET_ARCH_64_BIT cfg then 64 else 32.

Definition size_t (cfg : Config) (x : Z) : Z := wrap (size_t_bits cfg) x.

(** [x] is a value of type [size_t]. *)
Definition is_size_t (cfg : Config) (x : Z) : Prop :=
  0 <= x < 2 ^ size_t_bits cfg.

Definition uint32_t (x : Z) : Z := wrap 32 x.
Definition uint64_t (x : Z) : Z := wrap 64 x.

(** [static_cast<int>(x)] on a two's complement 32-bit [int]. *)
Definition static_cast_int (x : Z) : Z :=
  let y := wrap 32 x in if y <? 2 ^ 31 then y else y - 2 ^ 32.

Definition kMaxInt : Z := 0x7FFFFFFF.

(** The linear-memory page size, 64 KiB. The constant is declared outside
    this file; it is used as a [size_t] here. *)
Definition kWasmPageSize : Z := 0x10000.

Definition nullptr : Z := 0.

(** ** Outcomes: a call returns, or the process is terminated *)

Inductive Abort := CHECK_failed | DCHECK_failed | UNREACHABLE_reached.

Inductive Outcome (A : Type) :=
| Done (a : A)
| Aborted (why : Abort).
Arguments Done {A} a.
Arguments Aborted {A} why.

(** A computation over a state [S]: it returns a value and a new state,
    or aborts. *)
Definition M (S A : Type) : Type := S -> Outcome (A * S).

Definition ret {S A} (a : A) : M S A := fun s => Done (a, s).

Definition bind {S A B} (c : M S A) (k : A -> M S B) : M S B :=
  fun s => match c s with
           | Done (a, s') => k a s'
           | Aborted why => Aborted why
           end.

Notation "x <- c1 ;; c2" := (bind c1 (fun x => c2))
  (at level 100, c1 at next level, right associativity).
Notation "c1 ;; c2" := (bind c1 (fun _ => c2))
  (at level 100, right associativity).

Definition get {S} : M S S := fun s => Done (s, s).
Definition gets {S A} (f : S -> A) : M S A := fun s => Done (f s, s).
Definition modify {S} (f : S -> S) : M S unit := fun s => Done (tt, f s).
Definition abort {S A} (why : Abort) : M S A := fun _ => Aborted why.

(** [CHECK(cond)]: fatal in every build. *)
Definition CHECK {S} (cond : bool) : M S unit :=
  if cond then ret tt else abort CHECK_failed.

(** [DCHECK(cond)]: fatal in debug builds, compiled out otherwise. *)
Definition DCHECK {S} (cfg : Config) (cond : bool) : M S unit :=
  if DEBUG cfg then (if cond then ret tt else abort DCHECK_failed)
  else ret tt.

(** ** The tracker's data *)

Record AllocationData := {
  allocation_base : Z;
  allocation_length : Z;
  buffer_start : Z;
  buffer_length : Z
}.

(** [reserved_address_space_] (atomic), [allocated_address_space_] and the
    registry [allocations_], keyed by [buffer_start]. *)
Record WasmMemoryTracker := {
  reserved_address_space_ : Z;
  allocated_address_space_ : Z;
  allocations_ : gmap Z AllocationData
}.

Definition set_reserved (f : Z -> Z) (t : WasmMemoryTracker) :=
  {| reserved_address_space_ := f (reserved_address_space_ t);
     allocated_address_space_ := allocated_address_space_ t;
     allocations_ := allocations_ t |}.

Definition set_allocated (f : Z -> Z) (t : WasmMemoryTracker) :=
  {| reserved_address_space_ := reserved_address_space_ t;
     allocated_address_space_ := f (allocated_address_space_ t);
     allocations_ := allocations_ t |}.

Definition set_allocations
    (f : gmap Z AllocationData -> gmap Z AllocationData)
    (t : WasmMemoryTracker) :=
  {| reserved_address_space_ := reserved_address_space_ t;
     allocated_address_space_ := allocated_address_space_ t;
     allocations_ := f (allocations_ t) |}.

(** Modelled from the spec: the member initialisers of the tracker are in
    wasm-memory.h; a fresh tracker has both counters at zero (what the
    destructor expects them to have returned to) and an empty registry. *)
Definition new_WasmMemoryTracker : WasmMemoryTracker :=
  {| reserved_address_space_ := 0;
     allocated_address_space_ := 0;
     allocations_ := ∅ |}.

(** [kAddressSpaceLimit]: 1 TiB on 64-bit targets, 2 GiB otherwise. *)
Definition kAddressSpaceLimit (cfg : Config) : Z :=
  if V8_TARGET_ARCH_64_BIT cfg then 0x10000000000 else 0x80000000.

(** [std::atomic<size_t>::fetch_add] / [fetch_sub]: the old value is
    returned, the new one wraps. *)
Definition reserved_fetch_add (cfg : Config) (n : Z) : M WasmMemoryTracker Z :=
  old <- gets reserved_address_space_ ;;
  modify (set_reserved (fun r => size_t cfg (r + n))) ;;
  ret old.

Definition reserved_fetch_sub (cfg : Config) (n : Z) : M WasmMemoryTracker Z :=
  old <- gets reserved_address_space_ ;;
  modify (set_reserved (fun r => size_t cfg (r - n))) ;;
  ret old.

(** [std::unordered_map::emplace]: inserts only if the key is free. *)
Definition emplace (k : Z) (d : AllocationData)
    (m : gmap Z AllocationData) : gmap Z AllocationData :=
  match m !! k with
  | Some _ => m
  | None => <[k := d]> m
  end.

(** ** The tracker's operations *)

Definition ReserveAddressSpace (cfg : Config) (num_bytes : Z)
    : M WasmMemoryTracker bool :=
  old_count <- reserved_fetch_add cfg num_bytes ;;
  DCHECK cfg (old_count <=? size_t cfg (old_count + num_bytes)) ;;
  if size_t cfg (old_count + num_bytes) <=? kAddressSpaceLimit cfg
  then ret true
  else
    modify (set_reserved (fun r => size_t cfg (r - num_bytes))) ;;
    ret false.

Definition ReleaseReservation (cfg : Config) (num_bytes : Z)
    : M WasmMemoryTracker unit :=
  old_reserved <- reserved_fetch_sub cfg num_bytes ;;
  DCHECK cfg (num_bytes <=? old_reserved) ;;
  allocated <- gets allocated_address_space_ ;;
  DCHECK cfg (allocated <=? size_t cfg (old_reserved - num_bytes)).

Definition RegisterAllocation (cfg : Config)
    (allocation_base allocation_length buffer_start buffer_length : Z)
    : M WasmMemoryTracker unit :=
  allocated <- gets allocated_address_space_ ;;
  reserved <- gets reserved_address_space_ ;;
  DCHECK cfg (size_t cfg (allocated + allocation_length) <=? reserved) ;;
  modify (set_allocated (fun a => size_t cfg (a + allocation_length))) ;;
  modify (set_allocations
            (emplace buffer_start
               {| allocation_base := allocation_base;
                  allocation_length := allocation_length;
                  buffer_start := buffer_start;
                  buffer_length := buffer_length |})).

Definition ReleaseAllocation (cfg : Config) (buffer_start : Z)
    : M WasmMemoryTracker AllocationData :=
  find_result <- gets (fun t => allocations_ t !! buffer_start) ;;
  CHECK (bool_decide (is_Some find_result)) ;;
  match find_result with
  | Some data =>
      let num_bytes := allocation_length data in
      reserved <- gets reserved_address_space_ ;;
      DCHECK cfg (num_bytes <=? reserved) ;;
      allocated <- gets allocated_address_space_ ;;
      DCHECK cfg (num_bytes <=? allocated) ;;
      modify (set_reserved (fun r => size_t cfg (r - num_bytes))) ;;
      modify (set_allocated (fun a => size_t cfg (a - num_bytes))) ;;
      modify (set_allocations (delete buffer_start)) ;;
      ret data
  | None => abort UNREACHABLE_reached
  end.

Definition IsWasmMemory (buffer_start : Z) : M WasmMemoryTracker bool :=
  gets (fun t => bool_decide (is_Some (allocations_ t !! buffer_start))).

Definition FindAllocationData (buffer_start : Z)
    : M WasmMemoryTracker (option AllocationData) :=
  gets (fun t => allocations_ t !! buffer_start).

(** ** Rounding helpers *)

(** Modelled from the spec: [RoundUp] is declared outside this file; it
    rounds [x] up to the next multiple of [m] (the page size or the
    commit granularity), in the [bits]-wide unsigned type of [x]. *)
Definition RoundUp (bits x m : Z) : Z := wrap bits ((x + m - 1) / m * m).

(** The least power of two that is at least [x], searched from [p] upwards
    in [fuel] doublings. *)
Fixpoint power_of_two_from (fuel : nat) (p x : Z) : Z :=
  match fuel with
  | O => p
  | S fuel' => if x <=? p then p else power_of_two_from fuel' (2 * p) x
  end.

(** Modelled from the spec: [base::bits::RoundUpToPowerOfTwo32] is declared
    outside this file; it rounds a [uint32_t] up to the next power of two,
    and its result is a [uint32_t]. *)
Definition RoundUpToPowerOfTwo32 (x : Z) : Z :=
  uint32_t (power_of_two_from 32 1 x).

(** ** The isolate: the tracker and the collaborators the file calls *)

Inductive SharedFlag := kNotShared | kShared.

Definition SharedFlag_eqb (a b : SharedFlag) : bool :=
  match a, b with
  | kNotShared, kNotShared | kShared, kShared => true
  | _, _ => false
  end.

(** The calls made to collaborators outside this file, in the order they
    are made. *)
Inductive Event :=
| AllocatePages_called (address length alignment : Z)
| SetPermissions_called (address length : Z)
| AdjustAmountOfExternalAllocatedMemory_called (change_in_bytes : Z)
| NewJSArrayBuffer_called (shared : SharedFlag)
| UnregisterArrayBuffer_called (backing_store : Z).

(** The tracker of [isolate->wasm_engine()->memory_tracker()], what the
    page allocator is going to answer to the next calls ([nullptr] and
    [false] once the answers run out), and the calls made so far. *)
Record Isolate := {
  memory_tracker : WasmMemoryTracker;
  AllocatePages_answers : list Z;
  SetPermissions_answers : list bool;
  calls : list Event
}.

Definition set_memory_tracker (t : WasmMemoryTracker) (iso : Isolate) :=
  {| memory_tracker := t;
     AllocatePages_answers := AllocatePages_answers iso;
     SetPermissions_answers := SetPermissions_answers iso;
     calls := calls iso |}.

Definition record_call (e : Event) (iso : Isolate) :=
  {| memory_tracker := memory_tracker iso;
     AllocatePages_answers := AllocatePages_answers iso;
     SetPermissions_answers := SetPermissions_answers iso;
     calls := calls iso ++ [e] |}.

(** Run a tracker operation on the isolate's tracker. *)
Definition on_tracker {A} (c : M WasmMemoryTracker A) : M Isolate A :=
  fun iso => match c (memory_tracker iso) with
             | Done (a, t') => Done (a, set_memory_tracker t' iso)
             | Aborted why => Aborted why
             end.

(** [AllocatePages(address, length, alignment, kNoAccess)]. *)
Definition AllocatePages (address length alignment : Z) : M Isolate Z :=
  fun iso =>
    Done (hd nullptr (AllocatePages_answers iso),
          {| memory_tracker := memory_tracker iso;
             AllocatePages_answers := tl (AllocatePages_answers iso);
             SetPermissions_answers := SetPermissions_answers iso;
             calls := calls iso ++ [AllocatePages_called address length alignment] |}).

(** [SetPermissions(address, length, kReadWrite)]. *)
Definition SetPermissions (address length : Z) : M Isolate bool :=
  fun iso =>
    Done (hd false (SetPermissions_answers iso),
          {| memory_tracker := memory_tracker iso;
             AllocatePages_answers := AllocatePages_answers iso;
             SetPermissions_answers := tl (SetPermissions_answers iso);
             calls := calls iso ++ [SetPermissions_called address length] |}).

Definition AdjustAmountOfExternalAllocatedMemory (change_in_bytes : Z)
    : M Isolate unit :=
  modify (record_call (AdjustAmountOfExternalAllocatedMemory_called change_in_bytes)).

(** ** Backing stores *)

(** The result of [TryAllocateBackingStore]: the returned pointer and the
    two out-parameters as the call leaves them. *)
Record BackingStore := {
  memory : Z;
  out_allocation_base : Z;
  out_allocation_length : Z
}.

(** The value assigned to [*allocation_length]. The conditional has type
    [uint64_t] and is converted to [size_t]. *)
Definition computed_allocation_length (cfg : Config) (size : Z)
    (require_guard_regions : bool) : Z :=
  size_t cfg
    (if require_guard_regions
     then RoundUp 64 (kWasmMaxHeapOffset cfg) (CommitPageSize cfg)
     else RoundUpToPowerOfTwo32 (RoundUp 32 (uint32_t size) kWasmPageSize)).

(** [allocation_base0] is what [*allocation_base] holds on entry; it is
    overwritten only once the ledger reservation has succeeded. *)
Definition TryAllocateBackingStore (cfg : Config) (size : Z)
    (require_guard_regions : bool) (allocation_base0 : Z)
    : M Isolate BackingStore :=
  DCHECK cfg (V8_TARGET_ARCH_64_BIT cfg || negb require_guard_regions) ;;
  let allocation_length :=
    computed_allocation_length cfg size require_guard_regions in
  DCHECK cfg (size <=? allocation_length) ;;
  DCHECK cfg (kWasmPageSize <=? allocation_length) ;;
  reserved <- on_tracker (ReserveAddressSpace cfg allocation_length) ;;
  if negb reserved
  then ret {| memory := nullptr;
              out_allocation_base := allocation_base0;
              out_allocation_length := allocation_length |}
  else
    allocation_base <- AllocatePages nullptr allocation_length kWasmPageSize ;;
    if allocation_base =? nullptr
    then
      on_tracker (ReleaseReservation cfg allocation_length) ;;
      ret {| memory := nullptr;
             out_allocation_base := allocation_base;
             out_allocation_length := allocation_length |}
    else
      let memory := allocation_base in
      permitted <- SetPermissions memory
                     (RoundUp (size_t_bits cfg) size kWasmPageSize) ;;
      CHECK permitted ;;
      AdjustAmountOfExternalAllocatedMemory size ;;
      on_tracker
        (RegisterAllocation cfg allocation_base allocation_length memory size) ;;
      ret {| memory := memory;
             out_allocation_base := allocation_base;
             out_allocation_length := allocation_length |}.

(** ** Array buffers *)

(** The fields of [JSArrayBuffer] (objects.h) this file reads or writes. *)
Record JSArrayBuffer := {
  backing_store : Z;
  byte_length : Z;
  is_external : bool;
  is_shared : bool;
  is_neuterable : bool;
  is_growable : bool;
  is_wasm_memory : bool
}.

Definition set_is_external (b : bool) (buffer : JSArrayBuffer) :=
  {| backing_store := backing_store buffer;
     byte_length := byte_length buffer;
     is_external := b;
     is_shared := is_shared buffer;
     is_neuterable := is_neuterable buffer;
     is_growable := is_growable buffer;
     is_wasm_memory := is_wasm_memory buffer |}.

Definition set_is_neuterable (b : bool) (buffer : JSArrayBuffer) :=
  {| backing_store := backing_store buffer;
     byte_length := byte_length buffer;
     is_external := is_external buffer;
     is_shared := is_shared buffer;
     is_neuterable := b;
     is_growable := is_growable buffer;
     is_wasm_memory := is_wasm_memory buffer |}.

Definition set_is_growable (b : bool) (buffer : JSArrayBuffer) :=
  {| backing_store := backing_store buffer;
     byte_length := byte_length buffer;
     is_external := is_external buffer;
     is_shared := is_shared buffer;
     is_neuterable := is_neuterable buffer;
     is_growable := b;
     is_wasm_memory := is_wasm_memory buffer |}.

(** [isolate->factory()->NewJSArrayBuffer(shared, TENURED)]: a blank
    buffer object. *)
Definition NewJSArrayBuffer (shared : SharedFlag) : M Isolate JSArrayBuffer :=
  modify (record_call (NewJSArrayBuffer_called shared)) ;;
  ret {| backing_store := nullptr;
         byte_length := 0;
         is_external := false;
         is_shared := false;
         is_neuterable := false;
         is_growable := false;
         is_wasm_memory := false |}.

(** Modelled from the spec: [JSArrayBuffer::Setup] is declared outside
    this file; it is the factory's
    [Construct(backing_store, size, shared, externally_owned)], which
    stores its arguments in the buffer. *)
Definition JSArrayBuffer_Setup (buffer : JSArrayBuffer) (is_external : bool)
    (data allocated_length : Z) (shared : SharedFlag) (is_wasm_memory : bool)
    : JSArrayBuffer :=
  {| backing_store := data;
     byte_length := allocated_length;
     is_external := is_external;
     is_shared := SharedFlag_eqb shared kShared;
     is_neuterable := is_neuterable buffer;
     is_growable := is_growable buffer;
     is_wasm_memory := is_wasm_memory |}.

(** Modelled from the spec: [JSArrayBuffer::Neuter] is declared outside
    this file; the neuter transition clears the pointer and sets the
    length to zero. *)
Definition Neuter (buffer : JSArrayBuffer) : JSArrayBuffer :=
  {| backing_store := nullptr;
     byte_length := 0;
     is_external := is_external buffer;
     is_shared := is_shared buffer;
     is_neuterable := is_neuterable buffer;
     is_growable := is_growable buffer;
     is_wasm_memory := is_wasm_memory buffer |}.

Definition SetupArrayBuffer (cfg : Config) (backing_store size : Z)
    (is_external : bool) (shared : SharedFlag) : M Isolate JSArrayBuffer :=
  buffer <- NewJSArrayBuffer shared ;;
  DCHECK cfg (size <=? kMaxInt) ;;
  (if SharedFlag_eqb shared kShared
   then DCHECK cfg (FLAG_experimental_wasm_threads cfg)
   else ret tt) ;;
  let is_wasm_memory := true in
  let buffer := JSArrayBuffer_Setup buffer is_external backing_store
                  (static_cast_int size) shared is_wasm_memory in
  let buffer := set_is_neuterable false buffer in
  let buffer := set_is_growable true buffer in
  ret buffer.

(** A null handle is [None]. The [#if DEBUG] loop over the fresh pages
    only reads their bytes (the allocator returns them zero-filled); page
    contents are outside this model, so the loop is a no-op here. *)
Definition NewArrayBuffer (cfg : Config) (size : Z)
    (require_guard_regions : bool) (shared : SharedFlag)
    : M Isolate (option JSArrayBuffer) :=
  if (size_t cfg (FLAG_wasm_max_mem_pages cfg * kWasmPageSize) <? size)
     || (kMaxInt <? size)
  then ret None
  else
    let allocation_base := nullptr in
    let allocation_length := 0 in
    store <- (if size =? 0
              then ret {| memory := nullptr;
                          out_allocation_base := allocation_base;
                          out_allocation_length := allocation_length |}
              else TryAllocateBackingStore cfg size require_guard_regions
                     allocation_base) ;;
    if (0 <? size) && (memory store =? nullptr)
    then ret None
    else
      let is_external := false in
      buffer <- SetupArrayBuffer cfg (memory store) size is_external shared ;;
      ret (Some buffer).

Section Detach.

(** [JSArrayBuffer::FreeBackingStore] is declared outside this file and
    is taken as a parameter: it may change the buffer and the isolate. *)
Variable FreeBackingStore : JSArrayBuffer -> M Isolate JSArrayBuffer.

Definition DetachMemoryBuffer (cfg : Config) (buffer : JSArrayBuffer)
    (free_memory : bool) : M Isolate JSArrayBuffer :=
  if is_shared buffer then ret buffer
  else
    DCHECK cfg (negb (is_neuterable buffer)) ;;
    let was_external := is_external buffer in
    DCHECK cfg (negb (is_neuterable buffer)) ;;
    buffer <- (if negb was_external
               then
                 let buffer := set_is_external true buffer in
                 modify (record_call
                           (UnregisterArrayBuffer_called (backing_store buffer))) ;;
                 if free_memory then FreeBackingStore buffer else ret buffer
               else ret buffer) ;;
    DCHECK cfg (is_external buffer) ;;
    let buffer := set_is_neuterable true buffer in
    ret (Neuter buffer).

End Detach.

(** The three [DCHECK]s at the head of [TryAllocateBackingStore], as one
    condition. *)
Definition entry_dchecks (cfg : Config) (size : Z)
    (require_guard_regions : bool) : bool :=
  (V8_TARGET_ARCH_64_BIT cfg || negb require_guard_regions)
  && (size <=? computed_allocation_length cfg size require_guard_regions)
  && (kWasmPageSize <=? computed_allocation_length cfg size require_guard_regions).

(** ** Sequences of tracker calls *)

Inductive Call :=
| Call_ReserveAddressSpace (num_bytes : Z)
| Call_ReleaseReservation (num_bytes : Z)
| Call_RegisterAllocation
    (allocation_base allocation_length buffer_start buffer_length : Z)
| Call_ReleaseAllocation (buffer_start : Z).

(** The [size_t] arguments of a call are values of [size_t]. *)
Definition call_typed (cfg : Config) (c : Call) : Prop :=
  match c with
  | Call_ReserveAddressSpace n | Call_ReleaseReservation n => is_size_t cfg n
  | Call_RegisterAllocation _ len _ buf_len =>
      is_size_t cfg len /\ is_size_t cfg buf_len
  | Call_ReleaseAllocation _ => True
  end.

Definition perform (cfg : Config) (c : Call) : M WasmMemoryTracker unit :=
  match c with
  | Call_ReserveAddressSpace n => ReserveAddressSpace cfg n ;; ret tt
  | Call_ReleaseReservation n => ReleaseReservation cfg n
  | Call_RegisterAllocation base len start buf_len =>
      RegisterAllocation cfg base len start buf_len
  | Call_ReleaseAllocation start => ReleaseAllocation cfg start ;; ret tt
  end.

(** The preconditions of a call hold in a state when every [CHECK] and
    [DCHECK] of the call passes there, that is, when the debug build
    completes the call. *)
Definition precondition (cfg : Config) (c : Call) (t : WasmMemoryTracker)
    : bool :=
  match perform (debug_build cfg) c t with
  | Done _ => true
  | Aborted _ => false
  end.

Inductive reachable (cfg : Config) : WasmMemoryTracker -> Prop :=
| reachable_new : reachable cfg new_WasmMemoryTracker
| reachable_call t c t' :
    reachable cfg t ->
    call_typed cfg c ->
    precondition cfg c t = true ->
    perform cfg c t = Done (tt, t') ->
    reachable cfg t'.

(** The ledger invariant of the data model. *)
Definition ledger_invariant (cfg : Config) (t : WasmMemoryTracker) : Prop :=
  0 <= allocated_address_space_ t
  /\ allocated_address_space_ t <= reserved_address_space_ t
  /\ reserved_address_space_ t <= kAddressSpaceLimit cfg.

(** The invariant the sequences maintain: the ledger invariant, and no
    record of the registry has a negative length. *)
Definition tracker_invariant (cfg : Config) (t : WasmMemoryTracker) : Prop :=
  ledger_invariant cfg t
  /\ map_Forall (fun _ data => 0 <= allocation_length data) (allocations_ t).

(** ** The destructor *)

(** [~WasmMemoryTracker]: all reserved address space is expected to have
    been released. *)
Definition WasmMemoryTracker_destructor (cfg : Config)
    : M WasmMemoryTracker unit :=
  reserved <- gets reserved_address_space_ ;;
  DCHECK cfg (reserved =? 0) ;;
  allocated <- gets allocated_address_space_ ;;
  DCHECK cfg (allocated =? 0).

(** ** Sequences of calls of the functions of the file *)

(** The bytes the records of a registry account for. *)
Definition registry_bytes (m : gmap Z AllocationData) : Z :=
  map_fold (fun _ data total => allocation_length data + total) 0 m.

(** A user of the file allocates through [NewArrayBuffer] or
    [TryAllocateBackingStore] and frees through [ReleaseAllocation]; the
    reservation calls are made by [TryAllocateBackingStore] only. *)
Inductive ApiCall :=
| Api_NewArrayBuffer (size : Z) (require_guard_regions : bool)
    (shared : SharedFlag)
| Api_TryAllocateBackingStore (size : Z) (require_guard_regions : bool)
    (allocation_base0 : Z)
| Api_ReleaseAllocation (buffer_start : Z).

Definition api_perform (cfg : Config) (c : ApiCall) : M Isolate unit :=
  match c with
  | Api_NewArrayBuffer size guard shared =>
      NewArrayBuffer cfg size guard shared ;; ret tt
  | Api_TryAllocateBackingStore size guard base0 =>
      TryAllocateBackingStore cfg size guard base0 ;; ret tt
  | Api_ReleaseAllocation start =>
      on_tracker (ReleaseAllocation cfg start) ;; ret tt
  end.

(** The isolates reached from one with a fresh tracker (and any page
    allocator behaviour) by calls that return. *)
Inductive api_reachable (cfg : Config) : Isolate -> Prop :=
| api_reachable_start iso :
    memory_tracker iso = new_WasmMemoryTracker ->
    api_reachable cfg iso
| api_reachable_call iso c iso' :
    api_reachable cfg iso ->
    api_perform cfg c iso = Done (tt, iso') ->
    api_reachable cfg iso'.

(** Between such calls the two counters agree and cover the registry. *)
Definition api_invariant (cfg : Config) (t : WasmMemoryTracker) : Prop :=
  ledger_invariant cfg t
  /\ reserved_address_space_ t = allocated_address_space_ t
  /\ map_Forall (fun _ data => 0 <= allocation_length data) (allocations_ t)
  /\ registry_bytes (allocations_ t) <= allocated_address_space_ t.

(** The guard-region reservation leaves room below the top of [size_t]
    for the whole address space limit. *)
Definition guard_length_fits (cfg : Config) : Prop :=
  computed_allocation_length cfg 0 true + kAddressSpaceLimit cfg
  < 2 ^ size_t_bits cfg.

(** The builds in which the reservation counter cannot wrap around in
    [TryAllocateBackingStore]: the debug builds, where the [DCHECK] of
    [ReserveAddressSpace] stops the call, and the 64-bit builds, where the
    computed lengths are too small for it. *)
Definition no_wraparound_build (cfg : Config) : Prop :=
  DEBUG cfg = true
  \/ (V8_TARGET_ARCH_64_BIT cfg = true /\ guard_length_fits cfg).

(** ** Concrete builds and states used in the examples *)

Definition x64_release : Config :=
  {| V8_TARGET_ARCH_64_BIT := true;
     DEBUG := false;
     FLAG_wasm_max_mem_pages := 16384;
     FLAG_experimental_wasm_threads := false;
     kWasmMaxHeapOffset := 0x1FFFFFFFE;
     CommitPageSize := 4096 |}.

Definition x64_debug : Config := debug_build x64_release.

Definition ia32_release : Config :=
  {| V8_TARGET_ARCH_64_BIT := false;
     DEBUG := false;
     FLAG_wasm_max_mem_pages := 16384;
     FLAG_experimental_wasm_threads := false;
     kWasmMaxHeapOffset := 0x1FFFFFFFE;
     CommitPageSize := 4096 |}.

(** One page reserved and registered at address [0x1000]. *)
Definition one_page_record : AllocationData :=
  {| allocation_base := 0x1000;
     allocation_length := 0x10000;
     buffer_start := 0x1000;
     buffer_length := 100 |}.

Definition one_page_tracker : WasmMemoryTracker :=
  {| reserved_address_space_ := 0x10000;
     allocated_address_space_ := 0x10000;
     allocations_ := {[ 0x1000 := one_page_record ]} |}.

(** One byte reserved, nothing registered. *)
Definition one_byte_tracker : WasmMemoryTracker :=
  {| reserved_address_space_ := 1;
     allocated_address_space_ := 0;
     allocations_ := ∅ |}.

Definition ia32_debug : Config := debug_build ia32_release.

(** The whole 2 GiB of a 32-bit target reserved (two reservations of
    1 GiB), nothing registered. *)
Definition two_gib_reserved_tracker : WasmMemoryTracker :=
  {| reserved_address_space_ := 0x80000000;
     allocated_address_space_ := 0;
     allocations_ := ∅ |}.

(** As [one_page_tracker], with a second page reserved and not yet
    registered. *)
Definition second_page_reserved_tracker : WasmMemoryTracker :=
  {| reserved_address_space_ := 0x20000;
     allocated_address_space_ := 0x10000;
     allocations_ := {[ 0x1000 := one_page_record ]} |}.

(** An isolate with a fresh tracker, whose page allocator is going to
    hand out the address [0x1000] and to grant the permissions. *)
Definition fresh_isolate : Isolate :=
  {| memory_tracker := new_WasmMemoryTracker;
     AllocatePages_answers := [0x1000];
     SetPermissions_answers := [true];
     calls := [] |}.


(** An isolate with a fresh tracker whose page allocator refuses. *)
Definition no_pages_isolate : Isolate :=
  {| memory_tracker := new_WasmMemoryTracker;
     AllocatePages_answers := [nullptr];
     SetPermissions_answers := [];
     calls := [] |}.

(** [fresh_isolate] after a successful allocation of 100 bytes. *)
Definition one_page_isolate : Isolate :=
  {| memory_tracker := one_page_tracker;
     AllocatePages_answers := [];
     SetPermissions_answers := [];
     calls := [AllocatePages_called nullptr 0x10000 kWasmPageSize;
               SetPermissions_called 0x1000 0x10000;
               AdjustAmountOfExternalAllocatedMemory_called 100] |}.

(** A detached-from-the-heap (external), not shared wasm buffer over the
    page of [one_page_isolate]. *)
Definition external_buffer : JSArrayBuffer :=
  {| backing_store := 0x1000;
     byte_length := 100;
     is_external := true;
     is_shared := false;
     is_neuterable := false;
     is_growable := true;
     is_wasm_memory := true |}.

(** A [FreeBackingStore] that stops the process when it is called. *)
Definition FreeBackingStore_never (buffer : JSArrayBuffer)
    : M Isolate JSArrayBuffer :=
  abort UNREACHABLE_reached.

(** An isolate with a fresh tracker whose page allocator hands out
    [0x1000] and then refuses the permissions. *)
Definition no_permission_isolate : Isolate :=
  {| memory_tracker := new_WasmMemoryTracker;
     AllocatePages_answers := [0x1000];
     SetPermissions_answers := [false];
     calls := [] |}.

(** Two pages reserved, none registered. *)
Definition two_pages_reserved_tracker : WasmMemoryTracker :=
  {| reserved_address_space_ := 0x20000;
     allocated_address_space_ := 0;
     allocations_ := ∅ |}.

(** [fresh_isolate] after a successful allocation of 100 bytes at
    [0x1000], with a page allocator that is going to hand out the address
    [0x1000] once more: the pages were given back to the system without
    [ReleaseAllocation] (the record is still in the registry) and the
    system reuses the address. *)
Definition stale_key_isolate : Isolate :=
  {| memory_tracker := one_page_tracker;
     AllocatePages_answers := [0x1000];
     SetPermissions_answers := [true];
     calls := [AllocatePages_called nullptr 0x10000 kWasmPageSize;
               SetPermissions_called 0x1000 0x10000;
               AdjustAmountOfExternalAllocatedMemory_called 100] |}.

(** The tracker of [stale_key_isolate] after a further allocation of
    [0x40000] bytes answered with the address [0x1000]: both counters have
    grown by [0x40000], the registry still holds the older record. *)
Definition stale_key_tracker_after : WasmMemoryTracker :=
  {| reserved_address_space_ := 0x50000;
     allocated_address_space_ := 0x50000;
     allocations_ := {[ 0x1000 := one_page_record ]} |}.

(** * Properties *)

(** ** Machine arithmetic *)

Lemma size_t_bits_cases cfg :
  2 ^ size_t_bits cfg = 2 ^ 64 \/ 2 ^ size_t_bits cfg = 2 ^ 32.
Proof. unfold size_t_bits. destruct (V8_TARGET_ARCH_64_BIT cfg); auto. Qed.

Lemma size_t_modulus_pos cfg : 0 < 2 ^ size_t_bits cfg.
Proof. destruct (size_t_bits_cases cfg) as [-> | ->]; lia. Qed.

Lemma size_t_is_size_t cfg x : is_size_t cfg (size_t cfg x).
Proof.
  unfold is_size_t, size_t, wrap.
  apply Z.mod_pos_bound, size_t_modulus_pos.
Qed.

Lemma size_t_small cfg x : is_size_t cfg x -> size_t cfg x = x.
Proof. unfold is_size_t, size_t, wrap. intros H. now apply Z.mod_small. Qed.

Lemma size_t_add_sub cfg r n :
  is_size_t cfg r -> size_t cfg (size_t cfg (r + n) - n) = r.
Proof.
  intros H. unfold size_t, wrap.
  rewrite Zminus_mod_idemp_l.
  replace (r + n - n) with r by lia.
  now apply Z.mod_small.
Qed.

Lemma size_t_add_overflow cfg r n :
  is_size_t cfg r -> is_size_t cfg n ->
  (r <=? size_t cfg (r + n)) = (r + n <? 2 ^ size_t_bits cfg).
Proof.
  unfold is_size_t, size_t, wrap. intros Hr Hn.
  destruct (Z.ltb_spec (r + n) (2 ^ size_t_bits cfg)) as [Hlt | Hge].
  - rewrite Z.mod_small by lia. apply Z.leb_le. lia.
  - apply Z.leb_gt.
    replace (r + n) with ((r + n - 2 ^ size_t_bits cfg) + 1 * 2 ^ size_t_bits cfg)
      by lia.
    rewrite Z.mod_add by lia. rewrite Z.mod_small by lia. lia.
Qed.

Lemma kAddressSpaceLimit_is_size_t cfg :
  0 < kAddressSpaceLimit cfg < 2 ^ size_t_bits cfg.
Proof.
  unfold kAddressSpaceLimit, size_t_bits.
  destruct (V8_TARGET_ARCH_64_BIT cfg); lia.
Qed.

Lemma size_t_bits_debug_build cfg : size_t_bits (debug_build cfg) = size_t_bits cfg.
Proof. reflexivity. Qed.

(** ** The four operations, as one case analysis each *)

Lemma ReserveAddressSpace_eq cfg n t :
  ReserveAddressSpace cfg n t =
  let r := reserved_address_space_ t in
  if DEBUG cfg && negb (r <=? size_t cfg (r + n))
  then Aborted DCHECK_failed
  else if size_t cfg (r + n) <=? kAddressSpaceLimit cfg
       then Done (true, set_reserved (fun r => size_t cfg (r + n)) t)
       else Done (false,
                  set_reserved (fun r => size_t cfg (r - n))
                    (set_reserved (fun r => size_t cfg (r + n)) t)).
Proof.
  unfold ReserveAddressSpace, reserved_fetch_add, DCHECK, bind, gets, modify, ret, abort.
  cbn.
  destruct (DEBUG cfg); cbn;
    destruct (reserved_address_space_ t <=? size_t cfg (reserved_address_space_ t + n));
    cbn;
    destruct (size_t cfg (reserved_address_space_ t + n) <=? kAddressSpaceLimit cfg);
    reflexivity.
Qed.

Lemma ReleaseReservation_eq cfg n t :
  ReleaseReservation cfg n t =
  let r := reserved_address_space_ t in
  if DEBUG cfg
     && negb ((n <=? r) && (allocated_address_space_ t <=? size_t cfg (r - n)))
  then Aborted DCHECK_failed
  else Done (tt, set_reserved (fun r => size_t cfg (r - n)) t).
Proof.
  unfold ReleaseReservation, reserved_fetch_sub, DCHECK, bind, gets, modify, ret, abort.
  cbn.
  destruct (DEBUG cfg); cbn;
    destruct (n <=? reserved_address_space_ t); cbn;
    destruct (allocated_address_space_ t <=? size_t cfg (reserved_address_space_ t - n));
    reflexivity.
Qed.

Lemma RegisterAllocation_eq cfg base len start buf_len t :
  RegisterAllocation cfg base len start buf_len t =
  if DEBUG cfg
     && negb (size_t cfg (allocated_address_space_ t + len)
              <=? reserved_address_space_ t)
  then Aborted DCHECK_failed
  else Done (tt,
             set_allocations
               (emplace start {| allocation_base := base;
                                 allocation_length := len;
                                 buffer_start := start;
                                 buffer_length := buf_len |})
               (set_allocated (fun a => size_t cfg (a + len)) t)).
Proof.
  unfold RegisterAllocation, DCHECK, bind, gets, modify, ret, abort.
  destruct (DEBUG cfg); cbn;
    destruct (size_t cfg (allocated_address_space_ t + len)
              <=? reserved_address_space_ t);
    reflexivity.
Qed.

Lemma ReleaseAllocation_eq cfg start t :
  ReleaseAllocation cfg start t =
  match allocations_ t !! start with
  | None => Aborted CHECK_failed
  | Some data =>
      let n := allocation_length data in
      if DEBUG cfg
         && negb ((n <=? reserved_address_space_ t)
                  && (n <=? allocated_address_space_ t))
      then Aborted DCHECK_failed
      else Done (data,
                 set_allocations (delete start)
                   (set_allocated (fun a => size_t cfg (a - n))
                      (set_reserved (fun r => size_t cfg (r - n)) t)))
  end.
Proof.
  unfold ReleaseAllocation, CHECK, DCHECK, bind, gets, modify, ret, abort.
  destruct (allocations_ t !! start) as [data |]; cbn; [| reflexivity].
  destruct (DEBUG cfg); cbn;
    destruct (allocation_length data <=? reserved_address_space_ t); cbn;
    destruct (allocation_length data <=? allocated_address_space_ t);
    reflexivity.
Qed.

(** ** What the preconditions of the four calls are *)

Lemma precondition_ReserveAddressSpace cfg n t :
  precondition cfg (Call_ReserveAddressSpace n) t
  = (reserved_address_space_ t
     <=? size_t cfg (reserved_address_space_ t + n)).
Proof.
  unfold precondition, perform, bind, ret.
  rewrite ReserveAddressSpace_eq. cbn zeta.
  change (DEBUG (debug_build cfg)) with true.
  change (size_t (debug_build cfg)) with (size_t cfg).
  destruct (reserved_address_space_ t
            <=? size_t cfg (reserved_address_space_ t + n)); cbn;
    [| reflexivity].
  now destruct (size_t cfg (reserved_address_space_ t + n)
                <=? kAddressSpaceLimit (debug_build cfg)).
Qed.

Lemma precondition_ReleaseReservation cfg n t :
  precondition cfg (Call_ReleaseReservation n) t
  = (n <=? reserved_address_space_ t)
    && (allocated_address_space_ t
        <=? size_t cfg (reserved_address_space_ t - n)).
Proof.
  unfold precondition, perform. rewrite ReleaseReservation_eq. cbn zeta.
  change (DEBUG (debug_build cfg)) with true.
  change (size_t (debug_build cfg)) with (size_t cfg).
  now destruct ((n <=? reserved_address_space_ t)
                && (allocated_address_space_ t
                    <=? size_t cfg (reserved_address_space_ t - n))).
Qed.

Lemma precondition_RegisterAllocation cfg base len start buf_len t :
  precondition cfg (Call_RegisterAllocation base len start buf_len) t
  = (size_t cfg (allocated_address_space_ t + len)
     <=? reserved_address_space_ t).
Proof.
  unfold precondition, perform. rewrite RegisterAllocation_eq.
  change (DEBUG (debug_build cfg)) with true.
  change (size_t (debug_build cfg)) with (size_t cfg).
  now destruct (size_t cfg (allocated_address_space_ t + len)
                <=? reserved_address_space_ t).
Qed.

Lemma precondition_ReleaseAllocation cfg start t :
  precondition cfg (Call_ReleaseAllocation start) t
  = match allocations_ t !! start with
    | Some data =>
        (allocation_length data <=? reserved_address_space_ t)
        && (allocation_length data <=? allocated_address_space_ t)
    | None => false
    end.
Proof.
  unfold precondition, perform, bind, ret. rewrite ReleaseAllocation_eq.
  destruct (allocations_ t !! start) as [data |]; [| reflexivity].
  cbn zeta. change (DEBUG (debug_build cfg)) with true.
  now destruct ((allocation_length data <=? reserved_address_space_ t)
                && (allocation_length data <=? allocated_address_space_ t)).
Qed.

(** A call the debug build completes is completed by every build, with
    the same result. *)
Lemma perform_debug_build cfg c t r :
  perform (debug_build cfg) c t = Done r -> perform cfg c t = Done r.
Proof.
  destruct c as [n | n | base len start buf_len | start];
    unfold perform, bind, ret.
  - rewrite !ReserveAddressSpace_eq. cbn zeta.
    change (DEBUG (debug_build cfg)) with true.
    change (size_t (debug_build cfg)) with (size_t cfg).
    change (kAddressSpaceLimit (debug_build cfg)) with (kAddressSpaceLimit cfg).
    destruct (reserved_address_space_ t
              <=? size_t cfg (reserved_address_space_ t + n)); cbn;
      [| discriminate].
    now rewrite andb_false_r.
  - rewrite !ReleaseReservation_eq. cbn zeta.
    change (DEBUG (debug_build cfg)) with true.
    change (size_t (debug_build cfg)) with (size_t cfg).
    destruct ((n <=? reserved_address_space_ t)
              && (allocated_address_space_ t
                  <=? size_t cfg (reserved_address_space_ t - n))); cbn;
      [| discriminate].
    now rewrite andb_false_r.
  - rewrite !RegisterAllocation_eq.
    change (DEBUG (debug_build cfg)) with true.
    change (size_t (debug_build cfg)) with (size_t cfg).
    destruct (size_t cfg (allocated_address_space_ t + len)
              <=? reserved_address_space_ t); cbn; [| discriminate].
    now rewrite andb_false_r.
  - rewrite !ReleaseAllocation_eq.
    destruct (allocations_ t !! start) as [data |]; [| discriminate].
    cbn zeta. change (DEBUG (debug_build cfg)) with true.
    change (size_t (debug_build cfg)) with (size_t cfg).
    destruct ((allocation_length data <=? reserved_address_space_ t)
              && (allocation_length data <=? allocated_address_space_ t)); cbn;
      [| discriminate].
    now rewrite andb_false_r.
Qed.

(** ** The ledger invariant *)

Lemma ledger_invariant_reserved_is_size_t cfg t :
  ledger_invariant cfg t -> is_size_t cfg (reserved_address_space_ t).
Proof.
  intros (H0 & H1 & H2). pose proof (kAddressSpaceLimit_is_size_t cfg).
  unfold is_size_t. lia.
Qed.

Lemma ledger_invariant_allocated_is_size_t cfg t :
  ledger_invariant cfg t -> is_size_t cfg (allocated_address_space_ t).
Proof.
  intros (H0 & H1 & H2). pose proof (kAddressSpaceLimit_is_size_t cfg).
  unfold is_size_t. lia.
Qed.

Lemma tracker_invariant_new cfg : tracker_invariant cfg new_WasmMemoryTracker.
Proof.
  split.
  - pose proof (kAddressSpaceLimit_is_size_t cfg).
    unfold ledger_invariant; cbn. lia.
  - apply map_Forall_empty.
Qed.

Ltac debug_to_cfg :=
  change (DEBUG (debug_build ?c)) with true in *;
  change (size_t (debug_build ?c)) with (size_t c) in *;
  change (kAddressSpaceLimit (debug_build ?c)) with (kAddressSpaceLimit c) in *.

Lemma ReserveAddressSpace_preserves cfg n t t' :
  tracker_invariant cfg t -> is_size_t cfg n ->
  precondition cfg (Call_ReserveAddressSpace n) t = true ->
  perform cfg (Call_ReserveAddressSpace n) t = Done (tt, t') ->
  tracker_invariant cfg t'.
Proof.
  intros [Hl Hm] Hn Hpre Hrun.
  pose proof (ledger_invariant_reserved_is_size_t _ _ Hl) as Hr.
  pose proof (size_t_add_overflow cfg _ _ Hr Hn) as Hov.
  destruct Hl as (H0 & H1 & H2).
  unfold precondition, perform, bind, ret in Hpre, Hrun.
  rewrite ReserveAddressSpace_eq in Hpre, Hrun. cbn zeta in *. debug_to_cfg.
  destruct (reserved_address_space_ t
            <=? size_t cfg (reserved_address_space_ t + n)) eqn:Hd;
    [| discriminate Hpre].
  symmetry in Hov. apply Z.ltb_lt in Hov.
  rewrite andb_false_r in Hrun.
  assert (Hsum : size_t cfg (reserved_address_space_ t + n)
                 = reserved_address_space_ t + n).
  { apply size_t_small. unfold is_size_t in *. lia. }
  destruct (size_t cfg (reserved_address_space_ t + n) <=? kAddressSpaceLimit cfg)
    eqn:Hle; inversion Hrun; subst t'; clear Hrun.
  - apply Z.leb_le in Hle. split; [| exact Hm].
    unfold ledger_invariant; cbn. unfold is_size_t in *. lia.
  - split; [| exact Hm].
    unfold ledger_invariant; cbn. rewrite size_t_add_sub by exact Hr. lia.
Qed.

Lemma ReleaseReservation_preserves cfg n t t' :
  tracker_invariant cfg t -> is_size_t cfg n ->
  precondition cfg (Call_ReleaseReservation n) t = true ->
  perform cfg (Call_ReleaseReservation n) t = Done (tt, t') ->
  tracker_invariant cfg t'.
Proof.
  intros [Hl Hm] Hn Hpre Hrun.
  pose proof (ledger_invariant_reserved_is_size_t _ _ Hl) as Hr.
  destruct Hl as (H0 & H1 & H2).
  unfold precondition, perform in Hpre, Hrun.
  rewrite ReleaseReservation_eq in Hpre, Hrun. cbn zeta in *. debug_to_cfg.
  destruct (n <=? reserved_address_space_ t) eqn:Hle; [| discriminate Hpre].
  destruct (allocated_address_space_ t
            <=? size_t cfg (reserved_address_space_ t - n)) eqn:Hge;
    [| discriminate Hpre].
  rewrite andb_false_r in Hrun. inversion Hrun; subst t'; clear Hrun.
  apply Z.leb_le in Hle, Hge.
  rewrite size_t_small in Hge by (unfold is_size_t in *; lia).
  split; [| exact Hm].
  unfold ledger_invariant; cbn.
  rewrite size_t_small by (unfold is_size_t in *; lia).
  unfold is_size_t in *. lia.
Qed.

Lemma RegisterAllocation_preserves cfg base len start buf_len t t' :
  tracker_invariant cfg t -> is_size_t cfg len ->
  precondition cfg (Call_RegisterAllocation base len start buf_len) t = true ->
  perform cfg (Call_RegisterAllocation base len start buf_len) t = Done (tt, t') ->
  tracker_invariant cfg t'.
Proof.
  intros [Hl Hm] Hn Hpre Hrun.
  destruct Hl as (H0 & H1 & H2).
  unfold precondition, perform in Hpre, Hrun.
  rewrite RegisterAllocation_eq in Hpre, Hrun. debug_to_cfg.
  destruct (size_t cfg (allocated_address_space_ t + len)
            <=? reserved_address_space_ t) eqn:Hle; [| discriminate Hpre].
  rewrite andb_false_r in Hrun. inversion Hrun; subst t'; clear Hrun.
  apply Z.leb_le in Hle.
  pose proof (size_t_is_size_t cfg (allocated_address_space_ t + len)) as Hs.
  split.
  - unfold ledger_invariant; cbn. unfold is_size_t in Hs. lia.
  - cbn. unfold emplace.
    destruct (allocations_ t !! start) eqn:Hfind; [exact Hm |].
    apply map_Forall_insert_2; [| exact Hm]. cbn. unfold is_size_t in Hn. lia.
Qed.

Lemma ReleaseAllocation_preserves cfg start t t' :
  tracker_invariant cfg t ->
  precondition cfg (Call_ReleaseAllocation start) t = true ->
  perform cfg (Call_ReleaseAllocation start) t = Done (tt, t') ->
  tracker_invariant cfg t'.
Proof.
  intros [Hl Hm] Hpre Hrun.
  pose proof (ledger_invariant_reserved_is_size_t _ _ Hl) as Hr.
  pose proof (ledger_invariant_allocated_is_size_t _ _ Hl) as Ha.
  destruct Hl as (H0 & H1 & H2).
  unfold precondition, perform, bind, ret in Hpre, Hrun.
  rewrite ReleaseAllocation_eq in Hpre, Hrun.
  destruct (allocations_ t !! start) as [data |] eqn:Hfind; [| discriminate Hpre].
  cbn zeta in *. debug_to_cfg.
  pose proof (Hm _ _ Hfind) as Hpos. cbn in Hpos.
  destruct (allocation_length data <=? reserved_address_space_ t) eqn:Hle1;
    [| discriminate Hpre].
  destruct (allocation_length data <=? allocated_address_space_ t) eqn:Hle2;
    [| discriminate Hpre].
  rewrite andb_false_r in Hrun. inversion Hrun; subst t'; clear Hrun.
  apply Z.leb_le in Hle1, Hle2.
  split.
  - unfold ledger_invariant; cbn.
    rewrite !size_t_small by (unfold is_size_t in *; lia). lia.
  - cbn. apply map_Forall_delete. exact Hm.
Qed.

Lemma reachable_tracker_invariant cfg t :
  reachable cfg t -> tracker_invariant cfg t.
Proof.
  induction 1 as [| t c t' Hreach IH Hty Hpre Hrun].
  - apply tracker_invariant_new.
  - destruct c as [n | n | base len start buf_len | start]; cbn in Hty.
    + eapply ReserveAddressSpace_preserves; eauto.
    + eapply ReleaseReservation_preserves; eauto.
    + destruct Hty as [Hlen _]. eapply RegisterAllocation_preserves; eauto.
    + eapply ReleaseAllocation_preserves; eauto.
Qed.

(** C1. In every state of the tracker reached from a fresh tracker by
    calls of [ReserveAddressSpace], [ReleaseReservation],
    [RegisterAllocation] and [ReleaseAllocation] whose preconditions hold,
    [allocated_address_space_ <= reserved_address_space_ <= kAddressSpaceLimit],
    where the limit is 1 TiB on 64-bit targets and 2 GiB otherwise. *)
Theorem reachable_ledger_invariant cfg t :
  reachable cfg t ->
  allocated_address_space_ t <= reserved_address_space_ t
  /\ reserved_address_space_ t <= kAddressSpaceLimit cfg
  /\ kAddressSpaceLimit cfg
     = (if V8_TARGET_ARCH_64_BIT cfg then 2 ^ 40 else 2 ^ 31).
Proof.
  intros Hreach.
  destruct (reachable_tracker_invariant _ _ Hreach) as [(_ & Hle & Hcap) _].
  split; [exact Hle |]. split; [exact Hcap |].
  unfold kAddressSpaceLimit. destruct (V8_TARGET_ARCH_64_BIT cfg); reflexivity.
Qed.

Lemma one_page_tracker_reachable : reachable x64_release one_page_tracker.
Proof.
  eapply reachable_call
    with (c := Call_RegisterAllocation 0x1000 0x10000 0x1000 100).
  - eapply reachable_call with (c := Call_ReserveAddressSpace 0x10000).
    + apply reachable_new.
    + cbn. unfold is_size_t. cbn. lia.
    + reflexivity.
    + reflexivity.
  - cbn. unfold is_size_t. cbn. lia.
  - reflexivity.
  - reflexivity.
Qed.

Lemma reachable_ledger_invariant_witness :
  reachable x64_release one_page_tracker
  /\ allocated_address_space_ one_page_tracker
     <= reserved_address_space_ one_page_tracker
  /\ reserved_address_space_ one_page_tracker <= kAddressSpaceLimit x64_release
  /\ kAddressSpaceLimit x64_release = 2 ^ 40.
Proof.
  split.
  - exact one_page_tracker_reachable.
  - exact (reachable_ledger_invariant x64_release one_page_tracker
             one_page_tracker_reachable).
Defined.

(** ** [ReserveAddressSpace] *)

Lemma set_reserved_roundtrip cfg n t :
  is_size_t cfg (reserved_address_space_ t) ->
  set_reserved (fun r => size_t cfg (r - n))
    (set_reserved (fun r => size_t cfg (r + n)) t) = t.
Proof.
  intros Hr. destruct t as [r a m]; unfold set_reserved; cbn in *.
  now rewrite size_t_add_sub.
Qed.

(** A rejected reservation leaves the tracker as it was, in every build
    and for every [num_bytes]. *)
Lemma ReserveAddressSpace_rejected cfg n t t' :
  is_size_t cfg (reserved_address_space_ t) ->
  ReserveAddressSpace cfg n t = Done (false, t') -> t' = t.
Proof.
  intros Hr Hrun. rewrite ReserveAddressSpace_eq in Hrun. cbn zeta in Hrun.
  destruct (DEBUG cfg
            && negb (reserved_address_space_ t
                     <=? size_t cfg (reserved_address_space_ t + n)));
    [discriminate Hrun |].
  destruct (size_t cfg (reserved_address_space_ t + n) <=? kAddressSpaceLimit cfg);
    inversion Hrun.
  now apply set_reserved_roundtrip.
Qed.

Lemma two_gib_reserved_tracker_reachable :
  reachable ia32_release two_gib_reserved_tracker.
Proof.
  eapply reachable_call with (c := Call_ReserveAddressSpace 0x40000000).
  - eapply reachable_call with (c := Call_ReserveAddressSpace 0x40000000).
    + apply reachable_new.
    + cbn. unfold is_size_t. cbn. lia.
    + reflexivity.
    + reflexivity.
  - cbn. unfold is_size_t. cbn. lia.
  - reflexivity.
  - reflexivity.
Qed.

(** C2, as stated, fails when the addition wraps around. On a 32-bit
    target with the whole 2 GiB reserved, a further reservation of 2 GiB
    would bring the total to 4 GiB, above the limit; the [size_t] sum is 0,
    so the release build returns true and leaves
    [reserved_address_space_] at 0, and the debug build stops at the
    overflow [DCHECK]. In neither build does the call return false. The
    same happens on a 64-bit target with one byte reserved and
    [2^64 - 1] requested. *)
Lemma ReserveAddressSpace_wraparound_accepted :
  (reachable ia32_release two_gib_reserved_tracker
   /\ is_size_t ia32_release 0x80000000
   /\ kAddressSpaceLimit ia32_release
      < reserved_address_space_ two_gib_reserved_tracker + 0x80000000
   /\ ReserveAddressSpace ia32_release 0x80000000 two_gib_reserved_tracker
      = Done (true, {| reserved_address_space_ := 0;
                       allocated_address_space_ := 0;
                       allocations_ := ∅ |})
   /\ ReserveAddressSpace ia32_debug 0x80000000 two_gib_reserved_tracker
      = Aborted DCHECK_failed)
  /\ (is_size_t x64_release (2 ^ 64 - 1)
      /\ kAddressSpaceLimit x64_release
         < reserved_address_space_ one_byte_tracker + (2 ^ 64 - 1)
      /\ ReserveAddressSpace x64_release (2 ^ 64 - 1) one_byte_tracker
         = Done (true, {| reserved_address_space_ := 0;
                          allocated_address_space_ := 0;
                          allocations_ := ∅ |})
      /\ ReserveAddressSpace x64_debug (2 ^ 64 - 1) one_byte_tracker
         = Aborted DCHECK_failed).
Proof.
  split.
  - split; [exact two_gib_reserved_tracker_reachable |].
    split; [unfold is_size_t; cbn; lia |].
    split; [cbn; lia |].
    split; reflexivity.
  - split; [unfold is_size_t; cbn; lia |].
    split; [cbn; lia |].
    split; reflexivity.
Qed.

(** C2, amended. For every [num_bytes]: when the total is at most the
    limit, [ReserveAddressSpace] adds [num_bytes] to
    [reserved_address_space_] and returns true; when the total exceeds the
    limit and still fits [size_t] (the addition does not wrap around, which
    the function [DCHECK]s), it returns false with the addition rolled
    back; and whenever it returns false the tracker, counters and registry,
    is exactly as before the call. *)
Theorem ReserveAddressSpace_spec cfg n t :
  is_size_t cfg n ->
  is_size_t cfg (reserved_address_space_ t) ->
  (reserved_address_space_ t + n <= kAddressSpaceLimit cfg ->
   ReserveAddressSpace cfg n t
   = Done (true, {| reserved_address_space_ := reserved_address_space_ t + n;
                    allocated_address_space_ := allocated_address_space_ t;
                    allocations_ := allocations_ t |}))
  /\ (kAddressSpaceLimit cfg < reserved_address_space_ t + n
        < 2 ^ size_t_bits cfg ->
      ReserveAddressSpace cfg n t = Done (false, t))
  /\ (forall t', ReserveAddressSpace cfg n t = Done (false, t') -> t' = t).
Proof.
  intros Hn Hr.
  pose proof (kAddressSpaceLimit_is_size_t cfg) as Hcap.
  pose proof (size_t_add_overflow cfg _ _ Hr Hn) as Hov.
  split; [| split].
  - intros Hle.
    assert (Hfit : reserved_address_space_ t + n < 2 ^ size_t_bits cfg) by lia.
    rewrite ReserveAddressSpace_eq. cbn zeta.
    rewrite Hov. apply Z.ltb_lt in Hfit. rewrite Hfit. rewrite andb_false_r.
    apply Z.ltb_lt in Hfit.
    rewrite size_t_small by (unfold is_size_t in *; lia).
    apply Z.leb_le in Hle. rewrite Hle.
    unfold set_reserved. rewrite size_t_small by (unfold is_size_t in *; lia).
    reflexivity.
  - intros [Hgt Hfit].
    rewrite ReserveAddressSpace_eq. cbn zeta.
    rewrite Hov. apply Z.ltb_lt in Hfit. rewrite Hfit. rewrite andb_false_r.
    apply Z.ltb_lt in Hfit.
    rewrite size_t_small by (unfold is_size_t in *; lia).
    apply Z.leb_gt in Hgt. rewrite Hgt.
    now rewrite set_reserved_roundtrip.
  - intros t'. now apply ReserveAddressSpace_rejected.
Qed.

Lemma ReserveAddressSpace_spec_witness :
  (is_size_t x64_release (2 ^ 40)
   /\ is_size_t x64_release (reserved_address_space_ one_byte_tracker)
   /\ kAddressSpaceLimit x64_release
      < reserved_address_space_ one_byte_tracker + 2 ^ 40
      < 2 ^ size_t_bits x64_release)
  /\ ReserveAddressSpace x64_release (2 ^ 40) one_byte_tracker
     = Done (false, one_byte_tracker).
Proof.
  assert (Hn : is_size_t x64_release (2 ^ 40)) by (unfold is_size_t; cbn; lia).
  assert (Hr : is_size_t x64_release (reserved_address_space_ one_byte_tracker))
    by (unfold is_size_t; cbn; lia).
  assert (Hgt : kAddressSpaceLimit x64_release
                < reserved_address_space_ one_byte_tracker + 2 ^ 40
                < 2 ^ size_t_bits x64_release) by (cbn; lia).
  split; [auto |].
  exact (proj1 (proj2 (ReserveAddressSpace_spec x64_release (2 ^ 40)
                         one_byte_tracker Hn Hr)) Hgt).
Defined.

(** ** [RegisterAllocation] *)

Lemma emplace_present start data data' (m : gmap Z AllocationData) :
  m !! start = Some data -> emplace start data' m = m.
Proof. intros Hfind. unfold emplace. now rewrite Hfind. Qed.

(** C3, as stated, fails: registering a second record under the key
    [0x1000], which [second_page_reserved_tracker] already holds, completes
    in the release and in the debug build; no [CHECK] stops it. The record
    already there stays, the new one is dropped. *)
Lemma RegisterAllocation_duplicate_completes :
  allocations_ second_page_reserved_tracker !! 0x1000 = Some one_page_record
  /\ RegisterAllocation x64_release 0x2000 0x10000 0x1000 7
       second_page_reserved_tracker
     = Done (tt, {| reserved_address_space_ := 0x20000;
                    allocated_address_space_ := 0x20000;
                    allocations_ := {[ 0x1000 := one_page_record ]} |})
  /\ RegisterAllocation x64_debug 0x2000 0x10000 0x1000 7
       second_page_reserved_tracker
     = Done (tt, {| reserved_address_space_ := 0x20000;
                    allocated_address_space_ := 0x20000;
                    allocations_ := {[ 0x1000 := one_page_record ]} |}).
Proof. split; [| split]; reflexivity. Qed.

(** C3, amended. For every record whose [buffer_start] is already a key of
    the registry, [RegisterAllocation] does not fail: it completes (given
    the reservation its [DCHECK] asks for), and the registry is left as it
    was, so the existing record for that key is kept and is not
    overwritten. *)
Theorem RegisterAllocation_duplicate cfg base len start buf_len t data :
  allocations_ t !! start = Some data ->
  (DEBUG cfg = true ->
   size_t cfg (allocated_address_space_ t + len) <= reserved_address_space_ t) ->
  exists t',
    RegisterAllocation cfg base len start buf_len t = Done (tt, t')
    /\ allocations_ t' = allocations_ t
    /\ allocations_ t' !! start = Some data.
Proof.
  intros Hfind Hpre. rewrite RegisterAllocation_eq.
  assert (Hguard : DEBUG cfg
                   && negb (size_t cfg (allocated_address_space_ t + len)
                            <=? reserved_address_space_ t) = false).
  { destruct (DEBUG cfg); [| reflexivity]. cbn.
    apply negb_false_iff, Z.leb_le. now apply Hpre. }
  rewrite Hguard. eexists. split; [reflexivity |].
  cbn. rewrite (emplace_present _ _ _ _ Hfind). now split.
Qed.

Lemma RegisterAllocation_duplicate_witness :
  allocations_ second_page_reserved_tracker !! 0x1000 = Some one_page_record
  /\ (DEBUG x64_debug = true ->
      size_t x64_debug
        (allocated_address_space_ second_page_reserved_tracker + 0x10000)
      <= reserved_address_space_ second_page_reserved_tracker)
  /\ exists t',
       RegisterAllocation x64_debug 0x2000 0x10000 0x1000 7
         second_page_reserved_tracker = Done (tt, t')
       /\ allocations_ t' = allocations_ second_page_reserved_tracker
       /\ allocations_ t' !! 0x1000 = Some one_page_record.
Proof.
  assert (Hfind : allocations_ second_page_reserved_tracker !! 0x1000
                  = Some one_page_record) by reflexivity.
  assert (Hpre : DEBUG x64_debug = true ->
                 size_t x64_debug
                   (allocated_address_space_ second_page_reserved_tracker + 0x10000)
                 <= reserved_address_space_ second_page_reserved_tracker).
  { intros _. vm_compute. discriminate. }
  split; [exact Hfind |]. split; [exact Hpre |].
  exact (RegisterAllocation_duplicate x64_debug 0x2000 0x10000 0x1000 7
           second_page_reserved_tracker one_page_record Hfind Hpre).
Defined.

(** ** [ReleaseAllocation] *)

(** C4. For every [buffer_start] that is a key of the registry,
    [ReleaseAllocation] removes its record, returns that record and
    decrements [reserved_address_space_] and [allocated_address_space_] by
    the record's [allocation_length] (a [size_t] subtraction, which is the
    exact difference whenever the length does not exceed the counter; the
    debug build [DCHECK]s that it does not). For every [buffer_start] that
    is not a key, the call is stopped by the [CHECK] in every build. *)
Theorem ReleaseAllocation_spec cfg start t :
  (forall data,
     allocations_ t !! start = Some data ->
     (DEBUG cfg = true ->
      allocation_length data <= reserved_address_space_ t
      /\ allocation_length data <= allocated_address_space_ t) ->
     exists t',
       ReleaseAllocation cfg start t = Done (data, t')
       /\ allocations_ t' = delete start (allocations_ t)
       /\ allocations_ t' !! start = None
       /\ reserved_address_space_ t'
          = size_t cfg (reserved_address_space_ t - allocation_length data)
       /\ allocated_address_space_ t'
          = size_t cfg (allocated_address_space_ t - allocation_length data)
       /\ (0 <= allocation_length data <= reserved_address_space_ t ->
           is_size_t cfg (reserved_address_space_ t) ->
           reserved_address_space_ t'
           = reserved_address_space_ t - allocation_length data)
       /\ (0 <= allocation_length data <= allocated_address_space_ t ->
           is_size_t cfg (allocated_address_space_ t) ->
           allocated_address_space_ t'
           = allocated_address_space_ t - allocation_length data))
  /\ (allocations_ t !! start = None ->
      ReleaseAllocation cfg start t = Aborted CHECK_failed).
Proof.
  split.
  - intros data Hfind Hpre. rewrite ReleaseAllocation_eq, Hfind. cbn zeta.
    assert (Hguard :
              DEBUG cfg
              && negb ((allocation_length data <=? reserved_address_space_ t)
                       && (allocation_length data <=? allocated_address_space_ t))
              = false).
    { destruct (DEBUG cfg); [| reflexivity]. cbn.
      destruct (Hpre eq_refl) as [H1 H2].
      apply Z.leb_le in H1, H2. now rewrite H1, H2. }
    rewrite Hguard. eexists. split; [reflexivity |]. cbn.
    split; [reflexivity |].
    split; [apply lookup_delete_eq |].
    split; [reflexivity |]. split; [reflexivity |].
    split; intros Hlen Hty; apply size_t_small; unfold is_size_t in *; lia.
  - intros Hfind. now rewrite ReleaseAllocation_eq, Hfind.
Qed.

Lemma ReleaseAllocation_spec_witness :
  (allocations_ one_page_tracker !! 0x1000 = Some one_page_record
   /\ (DEBUG x64_debug = true ->
       allocation_length one_page_record
       <= reserved_address_space_ one_page_tracker
       /\ allocation_length one_page_record
          <= allocated_address_space_ one_page_tracker)
   /\ exists t',
        ReleaseAllocation x64_debug 0x1000 one_page_tracker
        = Done (one_page_record, t')
        /\ allocations_ t' !! 0x1000 = None
        /\ reserved_address_space_ t' = 0
        /\ allocated_address_space_ t' = 0)
  /\ (allocations_ one_page_tracker !! 0x2000 = None
      /\ ReleaseAllocation x64_debug 0x2000 one_page_tracker
         = Aborted CHECK_failed).
Proof.
  assert (Hfind : allocations_ one_page_tracker !! 0x1000 = Some one_page_record)
    by reflexivity.
  assert (Hpre : DEBUG x64_debug = true ->
                 allocation_length one_page_record
                 <= reserved_address_space_ one_page_tracker
                 /\ allocation_length one_page_record
                    <= allocated_address_space_ one_page_tracker).
  { intros _. cbn. lia. }
  assert (Habsent : allocations_ one_page_tracker !! 0x2000 = None)
    by reflexivity.
  split.
  - split; [exact Hfind |]. split; [exact Hpre |].
    destruct (proj1 (ReleaseAllocation_spec x64_debug 0x1000 one_page_tracker)
                one_page_record Hfind Hpre)
      as (t' & Hrun & _ & Hgone & _ & _ & Hres & Hall).
    exists t'. split; [exact Hrun |]. split; [exact Hgone |].
    split.
    + rewrite Hres; [reflexivity | cbn; lia | unfold is_size_t; cbn; lia].
    + rewrite Hall; [reflexivity | cbn; lia | unfold is_size_t; cbn; lia].
  - split; [exact Habsent |].
    exact (proj2 (ReleaseAllocation_spec x64_debug 0x2000 one_page_tracker)
             Habsent).
Defined.

(** ** [NewArrayBuffer] *)

(** The size gate at the head of [NewArrayBuffer]: a request above either
    bound returns the null handle and leaves the isolate untouched. *)
Lemma NewArrayBuffer_gate cfg size require_guard_regions shared iso :
  0 <= FLAG_wasm_max_mem_pages cfg ->
  Z.min (FLAG_wasm_max_mem_pages cfg * kWasmPageSize) kMaxInt < size ->
  NewArrayBuffer cfg size require_guard_regions shared iso = Done (None, iso).
Proof.
  intros Hflag Hsize. unfold NewArrayBuffer.
  assert (Hgate : (size_t cfg (FLAG_wasm_max_mem_pages cfg * kWasmPageSize) <? size)
                  || (kMaxInt <? size) = true).
  { apply orb_true_iff.
    destruct (Z.min_spec (FLAG_wasm_max_mem_pages cfg * kWasmPageSize) kMaxInt)
      as [[_ Hmin] | [_ Hmin]]; rewrite Hmin in Hsize.
    - left. apply Z.ltb_lt.
      assert (Hwrap : size_t cfg (FLAG_wasm_max_mem_pages cfg * kWasmPageSize)
                      <= FLAG_wasm_max_mem_pages cfg * kWasmPageSize).
      { unfold size_t, wrap. apply Z.mod_le.
        - unfold kWasmPageSize. lia.
        - apply size_t_modulus_pos. }
      lia.
    - right. now apply Z.ltb_lt. }
  rewrite Hgate. reflexivity.
Qed.

(** C7. For every size strictly greater than
    [min (FLAG_wasm_max_mem_pages * kWasmPageSize) kMaxInt],
    [NewArrayBuffer] returns the null handle at once: the isolate, with its
    tracker (ledger and registry), the page allocator and the calls made,
    is exactly as before. *)
Theorem NewArrayBuffer_rejects_oversize cfg size require_guard_regions shared iso :
  0 <= FLAG_wasm_max_mem_pages cfg ->
  Z.min (FLAG_wasm_max_mem_pages cfg * kWasmPageSize) kMaxInt < size ->
  NewArrayBuffer cfg size require_guard_regions shared iso = Done (None, iso)
  /\ forall iso' handle,
       NewArrayBuffer cfg size require_guard_regions shared iso
       = Done (handle, iso') ->
       handle = None
       /\ memory_tracker iso' = memory_tracker iso
       /\ calls iso' = calls iso.
Proof.
  intros Hflag Hsize.
  pose proof (NewArrayBuffer_gate cfg size require_guard_regions shared iso
                Hflag Hsize) as Hrun.
  split; [exact Hrun |].
  intros iso' handle Hrun'. rewrite Hrun in Hrun'.
  inversion Hrun'; subst. auto.
Qed.

Lemma NewArrayBuffer_rejects_oversize_witness :
  (0 <= FLAG_wasm_max_mem_pages x64_release
   /\ Z.min (FLAG_wasm_max_mem_pages x64_release * kWasmPageSize) kMaxInt
      < 0x40000001)
  /\ NewArrayBuffer x64_release 0x40000001 false kNotShared fresh_isolate
     = Done (None, fresh_isolate).
Proof.
  assert (Hflag : 0 <= FLAG_wasm_max_mem_pages x64_release) by (cbn; lia).
  assert (Hsize : Z.min (FLAG_wasm_max_mem_pages x64_release * kWasmPageSize)
                    kMaxInt < 0x40000001) by (vm_compute; reflexivity).
  split; [auto |].
  exact (proj1 (NewArrayBuffer_rejects_oversize x64_release 0x40000001 false
                  kNotShared fresh_isolate Hflag Hsize)).
Defined.

(** C8. [NewArrayBuffer] with [size = 0] succeeds: it returns a buffer
    whose backing store is [nullptr] and whose length is 0; the tracker is
    not touched (no ledger reservation, no registry entry) and the only
    call made is the construction of the buffer object (no page is
    reserved). The debug build asks that shared buffers are requested only
    under [FLAG_experimental_wasm_threads]. *)
Theorem NewArrayBuffer_zero_size cfg require_guard_regions shared iso :
  (DEBUG cfg = true -> shared = kShared ->
   FLAG_experimental_wasm_threads cfg = true) ->
  exists buffer,
    NewArrayBuffer cfg 0 require_guard_regions shared iso
    = Done (Some buffer, record_call (NewJSArrayBuffer_called shared) iso)
    /\ backing_store buffer = nullptr
    /\ byte_length buffer = 0
    /\ memory_tracker (record_call (NewJSArrayBuffer_called shared) iso)
       = memory_tracker iso
    /\ AllocatePages_answers (record_call (NewJSArrayBuffer_called shared) iso)
       = AllocatePages_answers iso
    /\ calls (record_call (NewJSArrayBuffer_called shared) iso)
       = calls iso ++ [NewJSArrayBuffer_called shared].
Proof.
  intros Hthreads. unfold NewArrayBuffer.
  assert (Hgate : (size_t cfg (FLAG_wasm_max_mem_pages cfg * kWasmPageSize) <? 0)
                  || (kMaxInt <? 0) = false).
  { apply orb_false_iff. split; [| reflexivity].
    apply Z.ltb_ge.
    apply (size_t_is_size_t cfg (FLAG_wasm_max_mem_pages cfg * kWasmPageSize)). }
  rewrite Hgate. cbn.
  unfold bind, ret, SetupArrayBuffer, NewJSArrayBuffer, bind, modify, ret, DCHECK.
  cbn.
  destruct (DEBUG cfg) eqn:Hdebug; cbn.
  - destruct shared; cbn.
    + eexists. split; [reflexivity |]. cbn. auto.
    + rewrite (Hthreads eq_refl eq_refl). cbn.
      eexists. split; [reflexivity |]. cbn. auto.
  - destruct shared; cbn; eexists; (split; [reflexivity |]); cbn; auto.
Qed.

Lemma NewArrayBuffer_zero_size_witness :
  (DEBUG x64_debug = true -> kNotShared = kShared ->
   FLAG_experimental_wasm_threads x64_debug = true)
  /\ exists buffer,
       NewArrayBuffer x64_debug 0 false kNotShared fresh_isolate
       = Done (Some buffer,
               record_call (NewJSArrayBuffer_called kNotShared) fresh_isolate)
       /\ backing_store buffer = nullptr
       /\ memory_tracker
            (record_call (NewJSArrayBuffer_called kNotShared) fresh_isolate)
          = new_WasmMemoryTracker.
Proof.
  assert (Hthreads : DEBUG x64_debug = true -> kNotShared = kShared ->
                     FLAG_experimental_wasm_threads x64_debug = true)
    by (intros _ Hshared; discriminate Hshared).
  split; [exact Hthreads |].
  destruct (NewArrayBuffer_zero_size x64_debug false kNotShared fresh_isolate
              Hthreads) as (buffer & Hrun & Hstore & _ & Htracker & _).
  exists buffer. split; [exact Hrun |]. split; [exact Hstore |].
  exact Htracker.
Defined.

(** ** [TryAllocateBackingStore] *)

Lemma TryAllocateBackingStore_eq cfg size require_guard_regions base0 iso :
  TryAllocateBackingStore cfg size require_guard_regions base0 iso =
  let len := computed_allocation_length cfg size require_guard_regions in
  if DEBUG cfg && negb (entry_dchecks cfg size require_guard_regions)
  then Aborted DCHECK_failed
  else
    match ReserveAddressSpace cfg len (memory_tracker iso) with
    | Aborted why => Aborted why
    | Done (false, t1) =>
        Done ({| memory := nullptr;
                 out_allocation_base := base0;
                 out_allocation_length := len |},
              set_memory_tracker t1 iso)
    | Done (true, t1) =>
        let base := hd nullptr (AllocatePages_answers iso) in
        let reserved_calls :=
          calls iso ++ [AllocatePages_called nullptr len kWasmPageSize] in
        if base =? nullptr
        then
          match ReleaseReservation cfg len t1 with
          | Aborted why => Aborted why
          | Done (_, t2) =>
              Done ({| memory := nullptr;
                       out_allocation_base := base;
                       out_allocation_length := len |},
                    {| memory_tracker := t2;
                       AllocatePages_answers := tl (AllocatePages_answers iso);
                       SetPermissions_answers := SetPermissions_answers iso;
                       calls := reserved_calls |})
          end
        else if hd false (SetPermissions_answers iso)
        then
          match RegisterAllocation cfg base len base size t1 with
          | Aborted why => Aborted why
          | Done (_, t3) =>
              Done ({| memory := base;
                       out_allocation_base := base;
                       out_allocation_length := len |},
                    {| memory_tracker := t3;
                       AllocatePages_answers := tl (AllocatePages_answers iso);
                       SetPermissions_answers := tl (SetPermissions_answers iso);
                       calls :=
                         (reserved_calls
                          ++ [SetPermissions_called base
                                (RoundUp (size_t_bits cfg) size kWasmPageSize)])
                         ++ [AdjustAmountOfExternalAllocatedMemory_called size] |})
          end
        else Aborted CHECK_failed
    end.
Proof.
  unfold TryAllocateBackingStore, entry_dchecks.
  set (len := computed_allocation_length cfg size require_guard_regions).
  cbn zeta.
  unfold DCHECK, CHECK, bind, ret, abort, on_tracker, AllocatePages,
    SetPermissions, AdjustAmountOfExternalAllocatedMemory, modify.
  destruct (DEBUG cfg); cbn -[ReserveAddressSpace ReleaseReservation RegisterAllocation].
  - destruct (V8_TARGET_ARCH_64_BIT cfg || negb require_guard_regions);
      cbn -[ReserveAddressSpace ReleaseReservation RegisterAllocation];
      [| reflexivity].
    destruct (size <=? len);
      cbn -[ReserveAddressSpace ReleaseReservation RegisterAllocation];
      [| reflexivity].
    destruct (kWasmPageSize <=? len);
      cbn -[ReserveAddressSpace ReleaseReservation RegisterAllocation];
      [| reflexivity].
    destruct (ReserveAddressSpace _ len (memory_tracker iso)) as [[[] t1] | why];
      cbn -[ReserveAddressSpace ReleaseReservation RegisterAllocation];
      try reflexivity.
    destruct (hd nullptr (AllocatePages_answers iso) =? nullptr);
      cbn -[ReserveAddressSpace ReleaseReservation RegisterAllocation].
    + destruct (ReleaseReservation _ len t1) as [[[] t2] | why]; reflexivity.
    + destruct (hd false (SetPermissions_answers iso));
        cbn -[ReserveAddressSpace ReleaseReservation RegisterAllocation];
        [| reflexivity].
      destruct (RegisterAllocation _ _ len _ size t1) as [[[] t3] | why];
        reflexivity.
  - destruct (ReserveAddressSpace _ len (memory_tracker iso)) as [[[] t1] | why];
      cbn -[ReserveAddressSpace ReleaseReservation RegisterAllocation];
      try reflexivity.
    destruct (hd nullptr (AllocatePages_answers iso) =? nullptr);
      cbn -[ReserveAddressSpace ReleaseReservation RegisterAllocation].
    + destruct (ReleaseReservation _ len t1) as [[[] t2] | why]; reflexivity.
    + destruct (hd false (SetPermissions_answers iso));
        cbn -[ReserveAddressSpace ReleaseReservation RegisterAllocation];
        [| reflexivity].
      destruct (RegisterAllocation _ _ len _ size t1) as [[[] t3] | why];
        reflexivity.
Qed.


Lemma computed_allocation_length_is_size_t cfg size require_guard_regions :
  is_size_t cfg (computed_allocation_length cfg size require_guard_regions).
Proof. apply size_t_is_size_t. Qed.

Lemma ReserveAddressSpace_accepted cfg n t t1 :
  ReserveAddressSpace cfg n t = Done (true, t1) ->
  t1 = set_reserved (fun r => size_t cfg (r + n)) t
  /\ size_t cfg (reserved_address_space_ t + n) <= kAddressSpaceLimit cfg
  /\ (DEBUG cfg = true ->
      reserved_address_space_ t <= size_t cfg (reserved_address_space_ t + n)).
Proof.
  intros Hrun. rewrite ReserveAddressSpace_eq in Hrun. cbn zeta in Hrun.
  destruct (DEBUG cfg); cbn in Hrun.
  - destruct (reserved_address_space_ t
              <=? size_t cfg (reserved_address_space_ t + n)) eqn:Hd;
      cbn in Hrun; [| discriminate Hrun].
    destruct (size_t cfg (reserved_address_space_ t + n) <=? kAddressSpaceLimit cfg)
      eqn:Hle; inversion Hrun.
    apply Z.leb_le in Hd, Hle. auto.
  - destruct (size_t cfg (reserved_address_space_ t + n) <=? kAddressSpaceLimit cfg)
      eqn:Hle; inversion Hrun.
    apply Z.leb_le in Hle. split; [reflexivity |]. split; [exact Hle |].
    intros Hdebug. discriminate Hdebug.
Qed.

Lemma ReleaseReservation_result cfg n t u t' :
  ReleaseReservation cfg n t = Done (u, t') ->
  t' = set_reserved (fun r => size_t cfg (r - n)) t.
Proof.
  intros Hrun. rewrite ReleaseReservation_eq in Hrun. cbn zeta in Hrun.
  destruct (DEBUG cfg
            && negb ((n <=? reserved_address_space_ t)
                     && (allocated_address_space_ t
                         <=? size_t cfg (reserved_address_space_ t - n))));
    now inversion Hrun.
Qed.

(** Releasing a reservation that was just accepted restores the tracker. *)
Lemma ReserveAddressSpace_then_ReleaseReservation cfg n t t1 :
  is_size_t cfg n ->
  is_size_t cfg (reserved_address_space_ t) ->
  (DEBUG cfg = true ->
   allocated_address_space_ t <= reserved_address_space_ t) ->
  ReserveAddressSpace cfg n t = Done (true, t1) ->
  ReleaseReservation cfg n t1 = Done (tt, t).
Proof.
  intros Hn Hr Hinv Hrun.
  destruct (ReserveAddressSpace_accepted _ _ _ _ Hrun) as (-> & _ & Hfit).
  rewrite ReleaseReservation_eq. cbn zeta.
  rewrite (set_reserved_roundtrip cfg n t Hr).
  assert (Hguard :
            DEBUG cfg
            && negb ((n <=? reserved_address_space_
                              (set_reserved (fun r => size_t cfg (r + n)) t))
                     && (allocated_address_space_
                           (set_reserved (fun r => size_t cfg (r + n)) t)
                         <=? size_t cfg
                               (reserved_address_space_
                                  (set_reserved (fun r => size_t cfg (r + n)) t)
                                - n)))
            = false).
  { destruct (DEBUG cfg); [| reflexivity]. cbn.
    specialize (Hfit eq_refl). specialize (Hinv eq_refl).
    apply Z.leb_le in Hfit.
    rewrite (size_t_add_overflow cfg _ _ Hr Hn) in Hfit.
    apply Z.ltb_lt in Hfit.
    rewrite (size_t_small cfg (reserved_address_space_ t + n))
      by (unfold is_size_t in *; lia).
    replace (reserved_address_space_ t + n - n) with (reserved_address_space_ t)
      by lia.
    rewrite (size_t_small cfg _ Hr).
    apply negb_false_iff, andb_true_iff.
    split; apply Z.leb_le; unfold is_size_t in *; lia. }
  rewrite Hguard. reflexivity.
Qed.



(** ** Allocation followed by release *)

Lemma RegisterAllocation_completed cfg base len start buf_len t u t' :
  RegisterAllocation cfg base len start buf_len t = Done (u, t') ->
  t' = set_allocations
         (emplace start {| allocation_base := base;
                           allocation_length := len;
                           buffer_start := start;
                           buffer_length := buf_len |})
         (set_allocated (fun a => size_t cfg (a + len)) t)
  /\ (DEBUG cfg = true ->
      size_t cfg (allocated_address_space_ t + len) <= reserved_address_space_ t).
Proof.
  intros Hrun. rewrite RegisterAllocation_eq in Hrun.
  destruct (DEBUG cfg); cbn in Hrun.
  - destruct (size_t cfg (allocated_address_space_ t + len)
              <=? reserved_address_space_ t) eqn:Hle; cbn in Hrun;
      inversion Hrun.
    apply Z.leb_le in Hle. auto.
  - inversion Hrun. split; [reflexivity |]. intros Hdebug. discriminate Hdebug.
Qed.

(** A successful [TryAllocateBackingStore] went through the ledger, the
    page allocator and the registry. *)
Lemma TryAllocateBackingStore_succeeded
    cfg size require_guard_regions base0 iso store iso1 :
  TryAllocateBackingStore cfg size require_guard_regions base0 iso
  = Done (store, iso1) ->
  memory store <> nullptr ->
  let len := computed_allocation_length cfg size require_guard_regions in
  exists t1,
    ReserveAddressSpace cfg len (memory_tracker iso) = Done (true, t1)
    /\ out_allocation_length store = len
    /\ out_allocation_base store = memory store
    /\ memory store = hd nullptr (AllocatePages_answers iso)
    /\ RegisterAllocation cfg (memory store) len (memory store) size t1
       = Done (tt, memory_tracker iso1).
Proof.
  intros Hrun Hmem len. rewrite TryAllocateBackingStore_eq in Hrun.
  cbn zeta in Hrun. fold len in Hrun.
  destruct (DEBUG cfg && negb (entry_dchecks cfg size require_guard_regions));
    [discriminate Hrun |].
  destruct (ReserveAddressSpace cfg len (memory_tracker iso))
    as [[[] t1] | why] eqn:Hres; [| | discriminate Hrun].
  - exists t1. split; [reflexivity |].
    destruct (hd nullptr (AllocatePages_answers iso) =? nullptr).
    + destruct (ReleaseReservation cfg len t1) as [[u t2] | why];
        [| discriminate Hrun].
      inversion Hrun; subst store. now cbn in Hmem.
    + destruct (hd false (SetPermissions_answers iso)); [| discriminate Hrun].
      destruct (RegisterAllocation cfg _ len _ size t1) as [[[] t3] | why] eqn:Hreg;
        [| discriminate Hrun].
      inversion Hrun; subst store iso1; cbn. auto.
  - inversion Hrun; subst store. now cbn in Hmem.
Qed.

Lemma stale_key_isolate_api_reachable :
  api_reachable x64_release stale_key_isolate.
Proof.
  eapply api_reachable_call
    with (iso := {| memory_tracker := new_WasmMemoryTracker;
                    AllocatePages_answers := [0x1000; 0x1000];
                    SetPermissions_answers := [true; true];
                    calls := [] |})
         (c := Api_TryAllocateBackingStore 100 false nullptr).
  - now apply api_reachable_start.
  - reflexivity.
Qed.

(** C9, as stated, fails when the page allocator answers with an address
    that is still a key of the registry. In [stale_key_isolate] (reached
    by one allocation; counters at [0x10000], a record of length [0x10000]
    under [0x1000]) an allocation of [0x40000] bytes succeeds at the
    address [0x1000] with allocation length [0x40000]; [emplace] keeps the
    older record, so [ReleaseAllocation] of [0x1000] returns the record of
    length [0x10000] and both counters end at [0x40000], not at the
    [0x10000] they had before the allocation. The release and the debug
    build agree. *)
Lemma allocate_then_release_stale_key :
  api_reachable x64_release stale_key_isolate
  /\ ledger_invariant x64_release (memory_tracker stale_key_isolate)
  /\ reserved_address_space_ (memory_tracker stale_key_isolate) = 0x10000
  /\ allocated_address_space_ (memory_tracker stale_key_isolate) = 0x10000
  /\ (exists iso1,
        TryAllocateBackingStore x64_release 0x40000 false nullptr
          stale_key_isolate
        = Done ({| memory := 0x1000;
                   out_allocation_base := 0x1000;
                   out_allocation_length := 0x40000 |}, iso1)
        /\ memory_tracker iso1 = stale_key_tracker_after
        /\ ReleaseAllocation x64_release 0x1000 (memory_tracker iso1)
           = Done (one_page_record,
                   {| reserved_address_space_ := 0x40000;
                      allocated_address_space_ := 0x40000;
                      allocations_ := ∅ |}))
  /\ (exists iso1,
        TryAllocateBackingStore x64_debug 0x40000 false nullptr
          stale_key_isolate
        = Done ({| memory := 0x1000;
                   out_allocation_base := 0x1000;
                   out_allocation_length := 0x40000 |}, iso1)
        /\ memory_tracker iso1 = stale_key_tracker_after
        /\ ReleaseAllocation x64_debug 0x1000 (memory_tracker iso1)
           = Done (one_page_record,
                   {| reserved_address_space_ := 0x40000;
                      allocated_address_space_ := 0x40000;
                      allocations_ := ∅ |}))
  /\ 0x40000 <> 0x10000.
Proof.
  split; [exact stale_key_isolate_api_reachable |].
  split; [unfold ledger_invariant; cbn; lia |].
  split; [reflexivity |]. split; [reflexivity |].
  split; [| split; [| discriminate]].
  - exists {| memory_tracker := stale_key_tracker_after;
              AllocatePages_answers := [];
              SetPermissions_answers := [];
              calls := calls stale_key_isolate
                       ++ [AllocatePages_called nullptr 0x40000 kWasmPageSize;
                           SetPermissions_called 0x1000 0x40000;
                           AdjustAmountOfExternalAllocatedMemory_called 0x40000] |}.
    split; [vm_compute; reflexivity |].
    split; [reflexivity | vm_compute; reflexivity].
  - exists {| memory_tracker := stale_key_tracker_after;
              AllocatePages_answers := [];
              SetPermissions_answers := [];
              calls := calls stale_key_isolate
                       ++ [AllocatePages_called nullptr 0x40000 kWasmPageSize;
                           SetPermissions_called 0x1000 0x40000;
                           AdjustAmountOfExternalAllocatedMemory_called 0x40000] |}.
    split; [vm_compute; reflexivity |].
    split; [reflexivity | vm_compute; reflexivity].
Qed.

(** C9, amended. For every ledger state and every successful
    [TryAllocateBackingStore], whose backing store has some
    [allocation_length] n at a [buffer_start] the page allocator handed out
    fresh (not already a key of the registry), the record registered has
    length n and [ReleaseAllocation] of that [buffer_start] returns it and
    restores [reserved_address_space_] and [allocated_address_space_], and
    with them the whole tracker, to what they were before the
    allocation. *)
Theorem allocate_then_release_restores
    cfg size require_guard_regions base0 iso store iso1 :
  ledger_invariant cfg (memory_tracker iso) ->
  TryAllocateBackingStore cfg size require_guard_regions base0 iso
  = Done (store, iso1) ->
  memory store <> nullptr ->
  allocations_ (memory_tracker iso) !! memory store = None ->
  exists data t2,
    ReleaseAllocation cfg (memory store) (memory_tracker iso1) = Done (data, t2)
    /\ allocation_length data = out_allocation_length store
    /\ reserved_address_space_ (memory_tracker iso1)
       = size_t cfg (reserved_address_space_ (memory_tracker iso)
                     + out_allocation_length store)
    /\ allocated_address_space_ (memory_tracker iso1)
       = size_t cfg (allocated_address_space_ (memory_tracker iso)
                     + out_allocation_length store)
    /\ reserved_address_space_ t2 = reserved_address_space_ (memory_tracker iso)
    /\ allocated_address_space_ t2 = allocated_address_space_ (memory_tracker iso)
    /\ t2 = memory_tracker iso.
Proof.
  intros Hinv Hrun Hmem Hfresh.
  pose proof (ledger_invariant_reserved_is_size_t _ _ Hinv) as Hr.
  pose proof (ledger_invariant_allocated_is_size_t _ _ Hinv) as Ha.
  destruct Hinv as (H0 & Hle & Hcap).
  destruct (TryAllocateBackingStore_succeeded _ _ _ _ _ _ _ Hrun Hmem)
    as (t1 & Hres & Hlen & _ & _ & Hreg).
  pose proof (computed_allocation_length_is_size_t cfg size require_guard_regions)
    as Hn.
  rewrite <- Hlen in Hres, Hreg, Hn.
  set (n := out_allocation_length store) in *.
  set (t := memory_tracker iso) in *.
  destruct (ReserveAddressSpace_accepted _ _ _ _ Hres) as (-> & _ & Hfit).
  destruct (RegisterAllocation_completed _ _ _ _ _ _ _ _ Hreg) as (Ht3 & Hroom).
  cbn in Hroom.
  rewrite Ht3. clear Hreg Ht3 Hres.
  rewrite ReleaseAllocation_eq. cbn -[size_t].
  unfold emplace. rewrite Hfresh, lookup_insert_eq. cbn -[size_t].
  assert (Hguard :
            DEBUG cfg
            && negb ((n <=? size_t cfg (reserved_address_space_ t + n))
                     && (n <=? size_t cfg (allocated_address_space_ t + n)))
            = false).
  { destruct (DEBUG cfg); [| reflexivity]. cbn.
    specialize (Hfit eq_refl). specialize (Hroom eq_refl).
    apply Z.leb_le in Hfit.
    rewrite (size_t_add_overflow cfg _ _ Hr Hn) in Hfit.
    apply Z.ltb_lt in Hfit.
    rewrite !size_t_small by (unfold is_size_t in *; lia).
    apply negb_false_iff, andb_true_iff.
    split; apply Z.leb_le; unfold is_size_t in *; lia. }
  rewrite Hguard.
  eexists. eexists. split; [reflexivity |]. cbn -[size_t].
  rewrite !size_t_add_sub by assumption.
  repeat (split; [reflexivity |]).
  subst t. clear Hguard Hfit Hroom.
  destruct (memory_tracker iso) as [r a m].
  unfold set_allocations, set_allocated, set_reserved. cbn -[size_t] in *.
  rewrite Hfresh, delete_insert_id by exact Hfresh.
  now rewrite !size_t_add_sub by assumption.
Qed.

Lemma allocate_then_release_restores_witness :
  (ledger_invariant x64_debug (memory_tracker fresh_isolate)
   /\ TryAllocateBackingStore x64_debug 100 false nullptr fresh_isolate
      = Done ({| memory := 0x1000;
                 out_allocation_base := 0x1000;
                 out_allocation_length := 0x10000 |}, one_page_isolate)
   /\ 0x1000 <> nullptr
   /\ allocations_ (memory_tracker fresh_isolate) !! 0x1000 = None)
  /\ exists data,
       ReleaseAllocation x64_debug 0x1000 (memory_tracker one_page_isolate)
       = Done (data, new_WasmMemoryTracker)
       /\ allocation_length data = 0x10000.
Proof.
  assert (Hinv : ledger_invariant x64_debug (memory_tracker fresh_isolate)).
  { unfold ledger_invariant. cbn. lia. }
  assert (Hrun : TryAllocateBackingStore x64_debug 100 false nullptr fresh_isolate
                 = Done ({| memory := 0x1000;
                            out_allocation_base := 0x1000;
                            out_allocation_length := 0x10000 |}, one_page_isolate))
    by reflexivity.
  assert (Hmem : 0x1000 <> nullptr) by discriminate.
  assert (Hfresh : allocations_ (memory_tracker fresh_isolate) !! 0x1000 = None)
    by reflexivity.
  split; [auto |].
  destruct (allocate_then_release_restores x64_debug 100 false nullptr
              fresh_isolate _ _ Hinv Hrun Hmem Hfresh)
    as (data & t2 & Hrel & Hlen & _ & _ & _ & _ & Ht2).
  exists data. rewrite <- Ht2 at 1. auto.
Defined.

(** ** [DetachMemoryBuffer] *)

(** Detaching a shared buffer is a no-op. *)
Lemma DetachMemoryBuffer_shared FreeBackingStore cfg buffer free_memory iso :
  is_shared buffer = true ->
  DetachMemoryBuffer FreeBackingStore cfg buffer free_memory iso
  = Done (buffer, iso).
Proof. intros Hshared. unfold DetachMemoryBuffer. now rewrite Hshared. Qed.

(** The free step runs when the buffer was not yet external: the buffer is
    made external, unregistered from the heap and handed to
    [FreeBackingStore] before it is neutered. *)
Lemma DetachMemoryBuffer_frees_internal FreeBackingStore cfg buffer iso :
  is_shared buffer = false ->
  is_external buffer = false ->
  is_neuterable buffer = false ->
  DetachMemoryBuffer FreeBackingStore cfg buffer true iso
  = match FreeBackingStore (set_is_external true buffer)
            (record_call (UnregisterArrayBuffer_called (backing_store buffer))
               iso) with
    | Done (freed, iso') =>
        if DEBUG cfg && negb (is_external freed)
        then Aborted DCHECK_failed
        else Done (Neuter (set_is_neuterable true freed), iso')
    | Aborted why => Aborted why
    end.
Proof.
  intros Hshared Hexternal Hneuterable.
  unfold DetachMemoryBuffer. rewrite Hshared, Hexternal, Hneuterable.
  unfold DCHECK, bind, ret, modify. cbn.
  destruct (DEBUG cfg); cbn.
  - destruct (FreeBackingStore _ _) as [[freed iso'] | why]; [| reflexivity].
    now destruct (is_external freed).
  - now destruct (FreeBackingStore _ _) as [[freed iso'] | why].
Qed.

(** C10. For every buffer that is not shared and is already external,
    [DetachMemoryBuffer] (with [free_memory] set or not) does not call
    [FreeBackingStore], whatever that function is, and leaves the isolate,
    with its tracker (registry and ledger), exactly as it was; it still
    sets [is_neuterable] and neuters the buffer, whose pointer and length
    are cleared. The debug build asks that the buffer is not yet
    neuterable. *)
Theorem DetachMemoryBuffer_already_external
    FreeBackingStore cfg buffer free_memory iso :
  is_shared buffer = false ->
  is_external buffer = true ->
  (DEBUG cfg = true -> is_neuterable buffer = false) ->
  DetachMemoryBuffer FreeBackingStore cfg buffer free_memory iso
  = Done (Neuter (set_is_neuterable true buffer), iso)
  /\ backing_store (Neuter (set_is_neuterable true buffer)) = nullptr
  /\ byte_length (Neuter (set_is_neuterable true buffer)) = 0
  /\ is_neuterable (Neuter (set_is_neuterable true buffer)) = true.
Proof.
  intros Hshared Hexternal Hneuterable.
  split; [| now cbn].
  unfold DetachMemoryBuffer. rewrite Hshared, Hexternal.
  unfold DCHECK, bind, ret. cbn.
  destruct (DEBUG cfg).
  - rewrite (Hneuterable eq_refl). cbn. now rewrite Hexternal.
  - reflexivity.
Qed.

Lemma DetachMemoryBuffer_already_external_witness :
  (is_shared external_buffer = false
   /\ is_external external_buffer = true
   /\ (DEBUG x64_debug = true -> is_neuterable external_buffer = false))
  /\ DetachMemoryBuffer FreeBackingStore_never x64_debug external_buffer true
       one_page_isolate
     = Done ({| backing_store := nullptr;
                byte_length := 0;
                is_external := true;
                is_shared := false;
                is_neuterable := true;
                is_growable := true;
                is_wasm_memory := true |}, one_page_isolate).
Proof.
  assert (Hshared : is_shared external_buffer = false) by reflexivity.
  assert (Hexternal : is_external external_buffer = true) by reflexivity.
  assert (Hneuterable : DEBUG x64_debug = true ->
                        is_neuterable external_buffer = false) by reflexivity.
  split; [auto |].
  exact (proj1 (DetachMemoryBuffer_already_external FreeBackingStore_never
                  x64_debug external_buffer true one_page_isolate
                  Hshared Hexternal Hneuterable)).
Defined.

(** ** The computed allocation length *)

Lemma power_of_two_from_spec fuel :
  forall p x, 0 < p ->
    let y := power_of_two_from fuel p x in
    (exists j, (j <= fuel)%nat /\ y = p * 2 ^ Z.of_nat j)
    /\ (x <= p * 2 ^ Z.of_nat fuel -> x <= y)
    /\ (p < y -> y < 2 * x).
Proof.
  induction fuel as [| fuel IH]; intros p x Hp; cbn zeta.
  - cbn [power_of_two_from]. split; [| split].
    + exists 0%nat. split; [lia |]. cbn. lia.
    + cbn. lia.
    + lia.
  - cbn [power_of_two_from].
    destruct (Z.leb_spec x p) as [Hle | Hgt].
    + split; [| split].
      * exists 0%nat. split; [lia |]. cbn. lia.
      * lia.
      * lia.
    + assert (H2p : 0 < 2 * p) by lia.
      destruct (IH (2 * p) x H2p) as ((j & Hj & Hy) & Hge & Hmin).
      split; [| split].
      * exists (S j). split; [lia |].
        rewrite Hy, Nat2Z.inj_succ, Z.pow_succ_r by lia. lia.
      * intros Hx. apply Hge.
        rewrite Nat2Z.inj_succ, Z.pow_succ_r in Hx by lia. lia.
      * intros _.
        destruct (Z.eq_dec (power_of_two_from fuel (2 * p) x) (2 * p)) as [Heq | Hne].
        -- lia.
        -- apply Hmin.
           assert (0 < 2 ^ Z.of_nat j) by (apply Z.pow_pos_nonneg; lia).
           nia.
Qed.

Lemma RoundUp_page size :
  1 <= size <= 2 ^ 31 ->
  let rounded := RoundUp 32 (uint32_t size) kWasmPageSize in
  rounded mod kWasmPageSize = 0
  /\ size <= rounded < size + kWasmPageSize
  /\ kWasmPageSize <= rounded <= 2 ^ 31.
Proof.
  intros Hsize. cbn zeta. unfold RoundUp, uint32_t, wrap, kWasmPageSize.
  rewrite (Z.mod_small size) by lia.
  pose proof (Z.div_mod (size + 0x10000 - 1) 0x10000 ltac:(lia)) as Hdiv.
  pose proof (Z.mod_pos_bound (size + 0x10000 - 1) 0x10000 ltac:(lia)) as Hrem.
  set (q := (size + 0x10000 - 1) / 0x10000) in *.
  set (r := (size + 0x10000 - 1) mod 0x10000) in *.
  assert (Hq : 1 <= q <= 0x8000) by lia.
  rewrite (Z.mod_small (q * 0x10000)) by lia.
  split; [apply Z.mod_mul; lia |]. lia.
Qed.

Lemma computed_allocation_length_in_range cfg size :
  1 <= size <= 2 ^ 31 ->
  let rounded := RoundUp 32 (uint32_t size) kWasmPageSize in
  let len := computed_allocation_length cfg size false in
  (exists k, 0 <= k <= 31 /\ len = 2 ^ k)
  /\ rounded <= len < 2 * rounded.
Proof.
  intros Hsize. cbn zeta.
  destruct (RoundUp_page size Hsize) as (_ & _ & Hpage & Hmax).
  unfold computed_allocation_length, RoundUpToPowerOfTwo32.
  set (rounded := RoundUp 32 (uint32_t size) kWasmPageSize) in *.
  destruct (power_of_two_from_spec 32 1 rounded ltac:(lia))
    as ((j & Hj & Hy) & Hge & Hmin).
  set (y := power_of_two_from 32 1 rounded) in *.
  unfold kWasmPageSize in Hpage.
  assert (Hle : rounded <= y) by (apply Hge; cbn; lia).
  assert (Hlt : y < 2 * rounded) by (apply Hmin; lia).
  assert (Hy32 : 0 <= y < 2 ^ 32) by lia.
  unfold uint32_t, wrap. rewrite (Z.mod_small y) by exact Hy32.
  rewrite (size_t_small cfg y).
  2:{ unfold is_size_t. destruct (size_t_bits_cases cfg) as [-> | ->]; lia. }
  split; [| lia].
  exists (Z.of_nat j). split; [| lia].
  split; [lia |].
  assert (Hj32 : Z.of_nat j < 32).
  { apply (Z.pow_lt_mono_r_iff 2); lia. }
  lia.
Qed.

(** C6, as stated, fails: [TryAllocateBackingStore] rejects no size. A
    request of [2^32 + 1] bytes without guard regions is cut to 32 bits
    before it is rounded, so the computed length is one page, less than
    the size; the release build goes on to reserve that page in the ledger
    and with the page allocator and registers it, and returns a non-null
    store (the debug build stops at the [DCHECK] on the length). *)
Lemma TryAllocateBackingStore_truncates_size :
  computed_allocation_length x64_release (2 ^ 32 + 1) false = 0x10000
  /\ 0x10000 < 2 ^ 32 + 1
  /\ (exists iso',
        TryAllocateBackingStore x64_release (2 ^ 32 + 1) false nullptr fresh_isolate
        = Done ({| memory := 0x1000;
                   out_allocation_base := 0x1000;
                   out_allocation_length := 0x10000 |}, iso')
        /\ reserved_address_space_ (memory_tracker iso') = 0x10000
        /\ allocated_address_space_ (memory_tracker iso') = 0x10000
        /\ allocations_ (memory_tracker iso') !! 0x1000
           = Some {| allocation_base := 0x1000;
                     allocation_length := 0x10000;
                     buffer_start := 0x1000;
                     buffer_length := 2 ^ 32 + 1 |}
        /\ calls iso'
           = [AllocatePages_called nullptr 0x10000 kWasmPageSize;
              SetPermissions_called 0x1000 (2 ^ 32 + 0x10000);
              AdjustAmountOfExternalAllocatedMemory_called (2 ^ 32 + 1)])
  /\ TryAllocateBackingStore x64_debug (2 ^ 32 + 1) false nullptr fresh_isolate
     = Aborted DCHECK_failed.
Proof.
  split; [reflexivity |]. split; [reflexivity |]. split; [| reflexivity].
  exists {| memory_tracker :=
              {| reserved_address_space_ := 0x10000;
                 allocated_address_space_ := 0x10000;
                 allocations_ :=
                   {[ 0x1000 := {| allocation_base := 0x1000;
                                   allocation_length := 0x10000;
                                   buffer_start := 0x1000;
                                   buffer_length := 2 ^ 32 + 1 |} ]} |};
            AllocatePages_answers := [];
            SetPermissions_answers := [];
            calls := [AllocatePages_called nullptr 0x10000 kWasmPageSize;
                      SetPermissions_called 0x1000 (2 ^ 32 + 0x10000);
                      AdjustAmountOfExternalAllocatedMemory_called (2 ^ 32 + 1)] |}.
  split; [vm_compute; reflexivity |].
  repeat split; reflexivity.
Qed.

(** C6, amended. For every size from 1 to [2^31] with guard regions not
    requested, [TryAllocateBackingStore] computes the allocation length as
    the size rounded up to the page size and then up to the next power of
    two; it is at least the size and at least one page, and the entry
    [DCHECK]s pass. The rejection of sizes above
    [min (FLAG_wasm_max_mem_pages * kWasmPageSize) kMaxInt] is made by the
    caller, [NewArrayBuffer], before [TryAllocateBackingStore] is called,
    and leaves the isolate as it was. *)
Theorem computed_allocation_length_spec cfg size :
  (1 <= size <= 2 ^ 31 ->
   let rounded := RoundUp 32 (uint32_t size) kWasmPageSize in
   let len := computed_allocation_length cfg size false in
   len = size_t cfg (RoundUpToPowerOfTwo32 rounded)
   /\ (rounded mod kWasmPageSize = 0
       /\ size <= rounded < size + kWasmPageSize)
   /\ ((exists k, 0 <= k <= 31 /\ len = 2 ^ k)
       /\ rounded <= len < 2 * rounded)
   /\ size <= len
   /\ kWasmPageSize <= len
   /\ entry_dchecks cfg size false = true)
  /\ (0 <= FLAG_wasm_max_mem_pages cfg ->
      Z.min (FLAG_wasm_max_mem_pages cfg * kWasmPageSize) kMaxInt < size ->
      forall require_guard_regions shared iso,
        NewArrayBuffer cfg size require_guard_regions shared iso
        = Done (None, iso)).
Proof.
  split.
  - intros Hsize. cbn zeta.
    destruct (RoundUp_page size Hsize) as (Hmult & Hround & Hpage & Hmax).
    destruct (computed_allocation_length_in_range cfg size Hsize)
      as (Hpow & Hnext).
    split; [reflexivity |].
    split; [auto |]. split; [auto |].
    assert (Hge : size <= computed_allocation_length cfg size false) by lia.
    assert (Hfloor : kWasmPageSize <= computed_allocation_length cfg size false)
      by lia.
    split; [exact Hge |]. split; [exact Hfloor |].
    unfold entry_dchecks.
    apply Z.leb_le in Hge, Hfloor. rewrite Hge, Hfloor.
    now rewrite orb_true_r.
  - intros Hflag Hgate require_guard_regions shared iso.
    now apply NewArrayBuffer_gate.
Qed.

Lemma computed_allocation_length_spec_witness :
  (1 <= 0x10001 <= 2 ^ 31
   /\ computed_allocation_length ia32_release 0x10001 false = 0x20000
   /\ RoundUp 32 (uint32_t 0x10001) kWasmPageSize = 0x20000
   /\ entry_dchecks ia32_release 0x10001 false = true)
  /\ (0 <= FLAG_wasm_max_mem_pages ia32_release
      /\ Z.min (FLAG_wasm_max_mem_pages ia32_release * kWasmPageSize) kMaxInt
         < 0x40000001
      /\ NewArrayBuffer ia32_release 0x40000001 false kNotShared fresh_isolate
         = Done (None, fresh_isolate)).
Proof.
  assert (Hsize : 1 <= 0x10001 <= 2 ^ 31) by lia.
  assert (Hflag : 0 <= FLAG_wasm_max_mem_pages ia32_release) by (cbn; lia).
  assert (Hgate : Z.min (FLAG_wasm_max_mem_pages ia32_release * kWasmPageSize)
                    kMaxInt < 0x40000001) by (vm_compute; reflexivity).
  split.
  - split; [exact Hsize |].
    destruct (proj1 (computed_allocation_length_spec ia32_release 0x10001) Hsize)
      as (_ & _ & _ & _ & _ & Hentry).
    split; [reflexivity |]. split; [reflexivity |]. exact Hentry.
  - split; [exact Hflag |]. split; [exact Hgate |].
    exact (proj2 (computed_allocation_length_spec ia32_release 0x40000001)
             Hflag Hgate false kNotShared fresh_isolate).
Defined.

(** * Further properties of the file *)

(** ** Reservations *)

(** X1. Reserving and releasing the same number of bytes undo each other:
    after an accepted [ReserveAddressSpace], [ReleaseReservation] of the
    same amount completes and gives the tracker back; and after a
    [ReleaseReservation] within its preconditions, [ReserveAddressSpace] of
    the same amount is accepted and gives the tracker back. *)
Theorem reservation_round_trips cfg n t :
  is_size_t cfg n ->
  ledger_invariant cfg t ->
  (forall t1,
     ReserveAddressSpace cfg n t = Done (true, t1) ->
     ReleaseReservation cfg n t1 = Done (tt, t))
  /\ (n <= reserved_address_space_ t ->
      allocated_address_space_ t <= reserved_address_space_ t - n ->
      exists t1,
        ReleaseReservation cfg n t = Done (tt, t1)
        /\ reserved_address_space_ t1 = reserved_address_space_ t - n
        /\ ReserveAddressSpace cfg n t1 = Done (true, t)).
Proof.
  intros Hn Hinv.
  pose proof (ledger_invariant_reserved_is_size_t _ _ Hinv) as Hr.
  destruct Hinv as (H0 & Hle & Hcap).
  split.
  - intros t1 Hrun.
    apply (ReserveAddressSpace_then_ReleaseReservation cfg n t t1 Hn Hr);
      [intros _; exact Hle | exact Hrun].
  - intros Hnr Har.
    assert (Hdiff : is_size_t cfg (reserved_address_space_ t - n))
      by (unfold is_size_t in *; lia).
    exists (set_reserved (fun r => size_t cfg (r - n)) t).
    split; [| split].
    + rewrite ReleaseReservation_eq. cbn zeta.
      rewrite (size_t_small cfg _ Hdiff).
      apply Z.leb_le in Hnr, Har. rewrite Hnr, Har. cbn.
      now rewrite andb_false_r.
    + cbn. now apply size_t_small.
    + rewrite ReserveAddressSpace_eq. cbn.
      rewrite (size_t_small cfg _ Hdiff).
      replace (reserved_address_space_ t - n + n)
        with (reserved_address_space_ t) by lia.
      rewrite (size_t_small cfg _ Hr).
      assert (H1 : (reserved_address_space_ t - n <=? reserved_address_space_ t)
                   = true) by (apply Z.leb_le; unfold is_size_t in *; lia).
      assert (H2 : (reserved_address_space_ t <=? kAddressSpaceLimit cfg) = true)
        by (apply Z.leb_le; lia).
      rewrite H1, H2. cbn. rewrite andb_false_r.
      destruct t as [r a m]; unfold set_reserved; cbn in *.
      rewrite (size_t_small cfg (r - n) Hdiff).
      replace (r - n + n) with r by lia.
      now rewrite (size_t_small cfg r Hr).
Qed.

Lemma reservation_round_trips_witness :
  (is_size_t x64_debug 0x10000
   /\ ledger_invariant x64_debug two_pages_reserved_tracker
   /\ 0x10000 <= reserved_address_space_ two_pages_reserved_tracker
   /\ allocated_address_space_ two_pages_reserved_tracker
      <= reserved_address_space_ two_pages_reserved_tracker - 0x10000)
  /\ exists t1,
       ReleaseReservation x64_debug 0x10000 two_pages_reserved_tracker
       = Done (tt, t1)
       /\ reserved_address_space_ t1 = 0x10000
       /\ ReserveAddressSpace x64_debug 0x10000 t1
          = Done (true, two_pages_reserved_tracker).
Proof.
  assert (Hn : is_size_t x64_debug 0x10000) by (unfold is_size_t; cbn; lia).
  assert (Hinv : ledger_invariant x64_debug two_pages_reserved_tracker)
    by (unfold ledger_invariant; cbn; lia).
  assert (Hnr : 0x10000 <= reserved_address_space_ two_pages_reserved_tracker)
    by (cbn; lia).
  assert (Har : allocated_address_space_ two_pages_reserved_tracker
                <= reserved_address_space_ two_pages_reserved_tracker - 0x10000)
    by (cbn; lia).
  split; [auto |].
  exact (proj2 (reservation_round_trips x64_debug 0x10000
                  two_pages_reserved_tracker Hn Hinv) Hnr Har).
Defined.

(** X2. [ReserveAddressSpace] never leaves [reserved_address_space_] above
    the limit, for every argument and in every build, also when the sum
    wraps around; it touches neither [allocated_address_space_] nor the
    registry; and the release build always returns. *)
Theorem ReserveAddressSpace_keeps_limit cfg n t :
  0 <= reserved_address_space_ t <= kAddressSpaceLimit cfg ->
  (forall accepted t',
     ReserveAddressSpace cfg n t = Done (accepted, t') ->
     0 <= reserved_address_space_ t' <= kAddressSpaceLimit cfg
     /\ allocated_address_space_ t' = allocated_address_space_ t
     /\ allocations_ t' = allocations_ t)
  /\ (DEBUG cfg = false ->
      exists accepted t', ReserveAddressSpace cfg n t = Done (accepted, t')).
Proof.
  intros Hr.
  assert (Hr' : is_size_t cfg (reserved_address_space_ t)).
  { pose proof (kAddressSpaceLimit_is_size_t cfg). unfold is_size_t. lia. }
  split.
  - intros accepted t' Hrun. destruct accepted.
    + destruct (ReserveAddressSpace_accepted _ _ _ _ Hrun) as (-> & Hle & _).
      cbn. split; [| auto].
      pose proof (size_t_is_size_t cfg (reserved_address_space_ t + n)) as Hs.
      unfold is_size_t in Hs. lia.
    + rewrite (ReserveAddressSpace_rejected _ _ _ _ Hr' Hrun). auto.
  - intros Hrelease. rewrite ReserveAddressSpace_eq, Hrelease. cbn.
    destruct (size_t cfg (reserved_address_space_ t + n) <=? kAddressSpaceLimit cfg);
      eauto.
Qed.

Lemma ReserveAddressSpace_keeps_limit_witness :
  0 <= reserved_address_space_ two_gib_reserved_tracker
    <= kAddressSpaceLimit ia32_release
  /\ exists accepted t',
       ReserveAddressSpace ia32_release 0x80000000 two_gib_reserved_tracker
       = Done (accepted, t')
       /\ 0 <= reserved_address_space_ t' <= kAddressSpaceLimit ia32_release.
Proof.
  assert (Hr : 0 <= reserved_address_space_ two_gib_reserved_tracker
               <= kAddressSpaceLimit ia32_release) by (cbn; lia).
  split; [exact Hr |].
  destruct (proj2 (ReserveAddressSpace_keeps_limit ia32_release 0x80000000
                     two_gib_reserved_tracker Hr) eq_refl)
    as (accepted & t' & Hrun).
  exists accepted, t'. split; [exact Hrun |].
  exact (proj1 (proj1 (ReserveAddressSpace_keeps_limit ia32_release 0x80000000
                         two_gib_reserved_tracker Hr) accepted t' Hrun)).
Defined.

(** ** The registry *)

(** X3. Registering under a key that is free makes the record findable:
    [RegisterAllocation] completes (given the reservation its [DCHECK] asks
    for), after it [FindAllocationData] of the key returns the record with
    the four values passed and [IsWasmMemory] returns true, the record of
    every other key is as before, and only [allocated_address_space_]
    among the counters has changed. *)
Theorem RegisterAllocation_then_find cfg base len start buf_len t :
  allocations_ t !! start = None ->
  (DEBUG cfg = true ->
   size_t cfg (allocated_address_space_ t + len) <= reserved_address_space_ t) ->
  exists t',
    RegisterAllocation cfg base len start buf_len t = Done (tt, t')
    /\ FindAllocationData start t'
       = Done (Some {| allocation_base := base;
                       allocation_length := len;
                       buffer_start := start;
                       buffer_length := buf_len |}, t')
    /\ IsWasmMemory start t' = Done (true, t')
    /\ (forall other, other <> start ->
        FindAllocationData other t' = Done (allocations_ t !! other, t'))
    /\ reserved_address_space_ t' = reserved_address_space_ t
    /\ allocated_address_space_ t'
       = size_t cfg (allocated_address_space_ t + len).
Proof.
  intros Hfresh Hpre. rewrite RegisterAllocation_eq.
  assert (Hguard : DEBUG cfg
                   && negb (size_t cfg (allocated_address_space_ t + len)
                            <=? reserved_address_space_ t) = false).
  { destruct (DEBUG cfg); [| reflexivity]. cbn.
    apply negb_false_iff, Z.leb_le. now apply Hpre. }
  rewrite Hguard. eexists. split; [reflexivity |].
  unfold FindAllocationData, IsWasmMemory, gets. cbn.
  unfold emplace. rewrite Hfresh.
  split; [now rewrite lookup_insert_eq |].
  split; [now rewrite lookup_insert_eq |].
  split; [| auto].
  intros other Hother. now rewrite lookup_insert_ne by congruence.
Qed.

Lemma RegisterAllocation_then_find_witness :
  (allocations_ second_page_reserved_tracker !! 0x20000 = None
   /\ (DEBUG x64_debug = true ->
       size_t x64_debug
         (allocated_address_space_ second_page_reserved_tracker + 0x10000)
       <= reserved_address_space_ second_page_reserved_tracker))
  /\ exists t',
       RegisterAllocation x64_debug 0x20000 0x10000 0x20000 7
         second_page_reserved_tracker = Done (tt, t')
       /\ IsWasmMemory 0x20000 t' = Done (true, t')
       /\ FindAllocationData 0x1000 t' = Done (Some one_page_record, t').
Proof.
  assert (Hfresh : allocations_ second_page_reserved_tracker !! 0x20000 = None)
    by reflexivity.
  assert (Hpre : DEBUG x64_debug = true ->
                 size_t x64_debug
                   (allocated_address_space_ second_page_reserved_tracker + 0x10000)
                 <= reserved_address_space_ second_page_reserved_tracker).
  { intros _. vm_compute. discriminate. }
  split; [auto |].
  destruct (RegisterAllocation_then_find x64_debug 0x20000 0x10000 0x20000 7
              second_page_reserved_tracker Hfresh Hpre)
    as (t' & Hrun & _ & Hmem & Hother & _).
  exists t'. split; [exact Hrun |]. split; [exact Hmem |].
  rewrite (Hother 0x1000) by discriminate. reflexivity.
Defined.

(** X4. A released key is no longer tracked: when [ReleaseAllocation] of a
    key of the registry completes (the debug build asks that the record's
    length does not exceed the counters), [IsWasmMemory] of the key returns
    false and [FindAllocationData] returns the null pointer afterwards, the
    record of every other key is as before, and a second
    [ReleaseAllocation] of the key is stopped by the [CHECK]. *)
Theorem ReleaseAllocation_then_find cfg start t data :
  allocations_ t !! start = Some data ->
  (DEBUG cfg = true ->
   allocation_length data <= reserved_address_space_ t
   /\ allocation_length data <= allocated_address_space_ t) ->
  exists t',
    ReleaseAllocation cfg start t = Done (data, t')
    /\ IsWasmMemory start t' = Done (false, t')
    /\ FindAllocationData start t' = Done (None, t')
    /\ (forall other, other <> start ->
        FindAllocationData other t' = Done (allocations_ t !! other, t'))
    /\ ReleaseAllocation cfg start t' = Aborted CHECK_failed.
Proof.
  intros Hfind Hpre. rewrite ReleaseAllocation_eq, Hfind. cbn zeta.
  assert (Hguard :
            DEBUG cfg
            && negb ((allocation_length data <=? reserved_address_space_ t)
                     && (allocation_length data <=? allocated_address_space_ t))
            = false).
  { destruct (DEBUG cfg); [| reflexivity]. cbn.
    destruct (Hpre eq_refl) as [H1 H2].
    apply Z.leb_le in H1, H2. now rewrite H1, H2. }
  rewrite Hguard. eexists. split; [reflexivity |].
  unfold FindAllocationData, IsWasmMemory, gets.
  rewrite ReleaseAllocation_eq. cbn.
  rewrite lookup_delete_eq.
  split; [reflexivity |]. split; [reflexivity |]. split; [| reflexivity].
  intros other Hother. now rewrite lookup_delete_ne by congruence.
Qed.

Lemma ReleaseAllocation_then_find_witness :
  (allocations_ one_page_tracker !! 0x1000 = Some one_page_record
   /\ (DEBUG x64_debug = true ->
       allocation_length one_page_record
       <= reserved_address_space_ one_page_tracker
       /\ allocation_length one_page_record
          <= allocated_address_space_ one_page_tracker))
  /\ exists t',
       ReleaseAllocation x64_debug 0x1000 one_page_tracker
       = Done (one_page_record, t')
       /\ IsWasmMemory 0x1000 t' = Done (false, t')
       /\ ReleaseAllocation x64_debug 0x1000 t' = Aborted CHECK_failed.
Proof.
  assert (Hfind : allocations_ one_page_tracker !! 0x1000 = Some one_page_record)
    by reflexivity.
  assert (Hpre : DEBUG x64_debug = true ->
                 allocation_length one_page_record
                 <= reserved_address_space_ one_page_tracker
                 /\ allocation_length one_page_record
                    <= allocated_address_space_ one_page_tracker).
  { intros _. cbn. lia. }
  split; [auto |].
  destruct (ReleaseAllocation_then_find x64_debug 0x1000 one_page_tracker
              one_page_record Hfind Hpre)
    as (t' & Hrun & Hmem & _ & _ & Hagain).
  exists t'. auto.
Defined.

(** ** [TryAllocateBackingStore], the success path *)

(** What a returning [TryAllocateBackingStore] has done to the tracker. *)
Lemma TryAllocateBackingStore_tracker
    cfg size require_guard_regions base0 iso store iso' :
  is_size_t cfg (reserved_address_space_ (memory_tracker iso)) ->
  TryAllocateBackingStore cfg size require_guard_regions base0 iso
  = Done (store, iso') ->
  let len := computed_allocation_length cfg size require_guard_regions in
  (memory store = nullptr /\ memory_tracker iso' = memory_tracker iso)
  \/ (memory store <> nullptr
      /\ memory store = hd nullptr (AllocatePages_answers iso)
      /\ size_t cfg (reserved_address_space_ (memory_tracker iso) + len)
         <= kAddressSpaceLimit cfg
      /\ (DEBUG cfg = true ->
          reserved_address_space_ (memory_tracker iso)
          <= size_t cfg (reserved_address_space_ (memory_tracker iso) + len))
      /\ memory_tracker iso'
         = set_allocations
             (emplace (memory store)
                {| allocation_base := memory store;
                   allocation_length := len;
                   buffer_start := memory store;
                   buffer_length := size |})
             (set_allocated (fun a => size_t cfg (a + len))
                (set_reserved (fun r => size_t cfg (r + len))
                   (memory_tracker iso)))).
Proof.
  intros Hr Hrun len.
  destruct (Z.eq_dec (memory store) nullptr) as [Hnull | Hmem].
  - left. split; [exact Hnull |].
    rewrite TryAllocateBackingStore_eq in Hrun. cbn zeta in Hrun.
    fold len in Hrun.
    destruct (DEBUG cfg && negb (entry_dchecks cfg size require_guard_regions));
      [discriminate Hrun |].
    destruct (ReserveAddressSpace cfg len (memory_tracker iso))
      as [[[] t1] | why] eqn:Hres; [| | discriminate Hrun].
    + destruct (ReserveAddressSpace_accepted _ _ _ _ Hres) as (-> & _ & _).
      destruct (hd nullptr (AllocatePages_answers iso) =? nullptr) eqn:Hp.
      * destruct (ReleaseReservation cfg len _) as [[u t2] | why] eqn:Hrel;
          [| discriminate Hrun].
        apply ReleaseReservation_result in Hrel. subst t2.
        rewrite set_reserved_roundtrip in Hrun by exact Hr.
        now inversion Hrun.
      * destruct (hd false (SetPermissions_answers iso)); [| discriminate Hrun].
        destruct (RegisterAllocation cfg _ len _ size _) as [[u t3] | why];
          [| discriminate Hrun].
        inversion Hrun; subst store; cbn in Hnull.
        apply Z.eqb_neq in Hp. contradiction.
    + rewrite (ReserveAddressSpace_rejected _ _ _ _ Hr Hres) in Hrun.
      now inversion Hrun.
  - right. split; [exact Hmem |].
    destruct (TryAllocateBackingStore_succeeded _ _ _ _ _ _ _ Hrun Hmem)
      as (t1 & Hres & _ & _ & Hp & Hreg).
    fold len in Hres, Hreg.
    destruct (ReserveAddressSpace_accepted _ _ _ _ Hres) as (-> & Hle & Hfit).
    destruct (RegisterAllocation_completed _ _ _ _ _ _ _ _ Hreg) as (Ht & _).
    auto.
Qed.

(** X5. The success path of [TryAllocateBackingStore]: when the ledger
    accepts the computed length, [AllocatePages] answers a non-null address
    and [SetPermissions] succeeds, the call returns that address both as
    the backing store and as [*allocation_base]; the calls made are, in
    this order, [AllocatePages] for the whole length, [SetPermissions] for
    the size rounded up to pages, and the external-memory adjustment; both
    counters have grown by the length; and if the address was not yet a
    key, the registry holds the record (address, length, address, size)
    there. *)
Theorem TryAllocateBackingStore_success_path
    cfg size require_guard_regions base0 iso t1 p :
  let len := computed_allocation_length cfg size require_guard_regions in
  ReserveAddressSpace cfg len (memory_tracker iso) = Done (true, t1) ->
  hd nullptr (AllocatePages_answers iso) = p ->
  p <> nullptr ->
  hd false (SetPermissions_answers iso) = true ->
  (DEBUG cfg = true ->
   entry_dchecks cfg size require_guard_regions = true
   /\ size_t cfg (allocated_address_space_ (memory_tracker iso) + len)
      <= reserved_address_space_ t1) ->
  exists iso1,
    TryAllocateBackingStore cfg size require_guard_regions base0 iso
    = Done ({| memory := p;
               out_allocation_base := p;
               out_allocation_length := len |}, iso1)
    /\ calls iso1
       = calls iso
         ++ [AllocatePages_called nullptr len kWasmPageSize;
             SetPermissions_called p
               (RoundUp (size_t_bits cfg) size kWasmPageSize);
             AdjustAmountOfExternalAllocatedMemory_called size]
    /\ AllocatePages_answers iso1 = tl (AllocatePages_answers iso)
    /\ SetPermissions_answers iso1 = tl (SetPermissions_answers iso)
    /\ reserved_address_space_ (memory_tracker iso1)
       = size_t cfg (reserved_address_space_ (memory_tracker iso) + len)
    /\ allocated_address_space_ (memory_tracker iso1)
       = size_t cfg (allocated_address_space_ (memory_tracker iso) + len)
    /\ (allocations_ (memory_tracker iso) !! p = None ->
        FindAllocationData p (memory_tracker iso1)
        = Done (Some {| allocation_base := p;
                        allocation_length := len;
                        buffer_start := p;
                        buffer_length := size |}, memory_tracker iso1)).
Proof.
  intros len Hres Hp Hnonnull Hperm Hdebug.
  rewrite TryAllocateBackingStore_eq. cbn zeta. fold len.
  assert (Hguard : DEBUG cfg
                   && negb (entry_dchecks cfg size require_guard_regions) = false).
  { destruct (DEBUG cfg); [| reflexivity]. cbn.
    destruct (Hdebug eq_refl) as [-> _]. reflexivity. }
  rewrite Hguard, Hres, Hp, Hperm.
  apply Z.eqb_neq in Hnonnull. rewrite Hnonnull.
  destruct (ReserveAddressSpace_accepted _ _ _ _ Hres) as (Ht1 & _ & _).
  rewrite RegisterAllocation_eq.
  assert (Hroom :
            DEBUG cfg
            && negb (size_t cfg (allocated_address_space_ t1 + len)
                     <=? reserved_address_space_ t1) = false).
  { destruct (DEBUG cfg); [| reflexivity]. cbn.
    destruct (Hdebug eq_refl) as [_ Hle].
    apply negb_false_iff, Z.leb_le.
    replace (allocated_address_space_ t1)
      with (allocated_address_space_ (memory_tracker iso)) by now subst t1.
    exact Hle. }
  rewrite Hroom. eexists. split; [reflexivity |]. cbn.
  split; [now rewrite <- !app_assoc |].
  split; [reflexivity |]. split; [reflexivity |].
  subst t1. cbn.
  split; [reflexivity |]. split; [reflexivity |].
  intros Hfresh. unfold FindAllocationData, gets. cbn.
  unfold emplace. rewrite Hfresh. now rewrite lookup_insert_eq.
Qed.

Lemma TryAllocateBackingStore_success_path_witness :
  (ReserveAddressSpace x64_debug 0x10000 (memory_tracker fresh_isolate)
   = Done (true, set_reserved (fun _ => 0x10000) new_WasmMemoryTracker)
   /\ hd nullptr (AllocatePages_answers fresh_isolate) = 0x1000
   /\ 0x1000 <> nullptr
   /\ hd false (SetPermissions_answers fresh_isolate) = true)
  /\ exists iso1,
       TryAllocateBackingStore x64_debug 100 false nullptr fresh_isolate
       = Done ({| memory := 0x1000;
                  out_allocation_base := 0x1000;
                  out_allocation_length := 0x10000 |}, iso1)
       /\ calls iso1
          = [AllocatePages_called nullptr 0x10000 kWasmPageSize;
             SetPermissions_called 0x1000 0x10000;
             AdjustAmountOfExternalAllocatedMemory_called 100]
       /\ FindAllocationData 0x1000 (memory_tracker iso1)
          = Done (Some one_page_record, memory_tracker iso1).
Proof.
  assert (Hres : ReserveAddressSpace x64_debug
                   (computed_allocation_length x64_debug 100 false)
                   (memory_tracker fresh_isolate)
                 = Done (true, set_reserved (fun _ => 0x10000) new_WasmMemoryTracker))
    by reflexivity.
  assert (Hp : hd nullptr (AllocatePages_answers fresh_isolate) = 0x1000)
    by reflexivity.
  assert (Hnonnull : 0x1000 <> nullptr) by discriminate.
  assert (Hperm : hd false (SetPermissions_answers fresh_isolate) = true)
    by reflexivity.
  assert (Hdebug :
            DEBUG x64_debug = true ->
            entry_dchecks x64_debug 100 false = true
            /\ size_t x64_debug
                 (allocated_address_space_ (memory_tracker fresh_isolate)
                  + computed_allocation_length x64_debug 100 false)
               <= reserved_address_space_
                    (set_reserved (fun _ => 0x10000) new_WasmMemoryTracker)).
  { intros _. split; [reflexivity |]. vm_compute. discriminate. }
  split; [auto |].
  destruct (TryAllocateBackingStore_success_path x64_debug 100 false nullptr
              fresh_isolate _ _ Hres Hp Hnonnull Hperm Hdebug)
    as (iso1 & Hrun & Hcalls & _ & _ & _ & _ & Hfind).
  exists iso1. split; [exact Hrun |]. split; [exact Hcalls |].
  exact (Hfind eq_refl).
Defined.

(** X6. [TryAllocateBackingStore] keeps the ledger invariant: from a
    tracker within the invariant, and with a computed length that does
    not carry the reservation counter past the top of [size_t], every
    return, successful or not and in every build, leaves
    [0 <= allocated <= reserved <= limit]. *)
Theorem TryAllocateBackingStore_keeps_ledger_invariant
    cfg size require_guard_regions base0 iso store iso' :
  ledger_invariant cfg (memory_tracker iso) ->
  reserved_address_space_ (memory_tracker iso)
  + computed_allocation_length cfg size require_guard_regions
  < 2 ^ size_t_bits cfg ->
  TryAllocateBackingStore cfg size require_guard_regions base0 iso
  = Done (store, iso') ->
  ledger_invariant cfg (memory_tracker iso').
Proof.
  intros Hinv Hfit Hrun.
  pose proof (ledger_invariant_reserved_is_size_t _ _ Hinv) as Hr.
  pose proof (computed_allocation_length_is_size_t cfg size require_guard_regions)
    as Hlen.
  destruct (TryAllocateBackingStore_tracker _ _ _ _ _ _ _ Hr Hrun)
    as [[_ ->] | (_ & _ & Hle & _ & ->)]; [exact Hinv |].
  destruct Hinv as (H0 & Ha & Hcap).
  unfold ledger_invariant; cbn.
  rewrite !size_t_small in * by (unfold is_size_t in *; lia).
  unfold is_size_t in *. lia.
Qed.

Lemma TryAllocateBackingStore_keeps_ledger_invariant_witness :
  (ledger_invariant x64_release (memory_tracker fresh_isolate)
   /\ reserved_address_space_ (memory_tracker fresh_isolate)
      + computed_allocation_length x64_release 100 false
      < 2 ^ size_t_bits x64_release
   /\ TryAllocateBackingStore x64_release 100 false nullptr fresh_isolate
      = Done ({| memory := 0x1000;
                 out_allocation_base := 0x1000;
                 out_allocation_length := 0x10000 |}, one_page_isolate))
  /\ ledger_invariant x64_release (memory_tracker one_page_isolate).
Proof.
  assert (Hinv : ledger_invariant x64_release (memory_tracker fresh_isolate))
    by (unfold ledger_invariant; cbn; lia).
  assert (Hfit : reserved_address_space_ (memory_tracker fresh_isolate)
                 + computed_allocation_length x64_release 100 false
                 < 2 ^ size_t_bits x64_release) by (vm_compute; reflexivity).
  assert (Hrun : TryAllocateBackingStore x64_release 100 false nullptr fresh_isolate
                 = Done ({| memory := 0x1000;
                            out_allocation_base := 0x1000;
                            out_allocation_length := 0x10000 |}, one_page_isolate))
    by reflexivity.
  split; [auto |].
  exact (TryAllocateBackingStore_keeps_ledger_invariant x64_release 100 false
           nullptr fresh_isolate _ _ Hinv Hfit Hrun).
Defined.

(** ** [SetupArrayBuffer] and [NewArrayBuffer] *)

Lemma SetupArrayBuffer_eq cfg store size is_ext shared iso :
  SetupArrayBuffer cfg store size is_ext shared iso =
  if DEBUG cfg
     && negb ((size <=? kMaxInt)
              && (negb (SharedFlag_eqb shared kShared)
                  || FLAG_experimental_wasm_threads cfg))
  then Aborted DCHECK_failed
  else Done (set_is_growable true
               (set_is_neuterable false
                  (JSArrayBuffer_Setup
                     {| backing_store := nullptr;
                        byte_length := 0;
                        is_external := false;
                        is_shared := false;
                        is_neuterable := false;
                        is_growable := false;
                        is_wasm_memory := false |}
                     is_ext store (static_cast_int size) shared true)),
             record_call (NewJSArrayBuffer_called shared) iso).
Proof.
  unfold SetupArrayBuffer, NewJSArrayBuffer, DCHECK, bind, ret, modify, abort.
  destruct (DEBUG cfg); cbn.
  - destruct (size <=? kMaxInt); cbn; [| reflexivity].
    destruct shared; cbn; [reflexivity |].
    now destruct (FLAG_experimental_wasm_threads cfg).
  - now destruct shared.
Qed.

Lemma NewArrayBuffer_eq cfg size require_guard_regions shared iso :
  NewArrayBuffer cfg size require_guard_regions shared iso =
  if (size_t cfg (FLAG_wasm_max_mem_pages cfg * kWasmPageSize) <? size)
     || (kMaxInt <? size)
  then Done (None, iso)
  else if size =? 0
  then match SetupArrayBuffer cfg nullptr size false shared iso with
       | Done (buffer, iso') => Done (Some buffer, iso')
       | Aborted why => Aborted why
       end
  else match TryAllocateBackingStore cfg size require_guard_regions nullptr iso with
       | Aborted why => Aborted why
       | Done (store, iso1) =>
           if (0 <? size) && (memory store =? nullptr)
           then Done (None, iso1)
           else match SetupArrayBuffer cfg (memory store) size false shared iso1 with
                | Done (buffer, iso') => Done (Some buffer, iso')
                | Aborted why => Aborted why
                end
       end.
Proof.
  unfold NewArrayBuffer.
  destruct ((size_t cfg (FLAG_wasm_max_mem_pages cfg * kWasmPageSize) <? size)
            || (kMaxInt <? size)); [reflexivity |].
  cbn zeta. unfold bind at 1.
  destruct (size =? 0) eqn:Hzero.
  - apply Z.eqb_eq in Hzero. subst size. cbn -[SetupArrayBuffer].
    unfold bind, ret.
    now destruct (SetupArrayBuffer cfg nullptr 0 false shared iso) as [[b i] | w].
  - destruct (TryAllocateBackingStore cfg size require_guard_regions nullptr iso)
      as [[store iso1] | why]; [| reflexivity].
    destruct ((0 <? size) && (memory store =? nullptr)); [reflexivity |].
    unfold bind, ret.
    now destruct (SetupArrayBuffer cfg (memory store) size false shared iso1)
      as [[b i] | w].
Qed.

(** What a [TryAllocateBackingStore] that returns [nullptr] has done. *)
Lemma TryAllocateBackingStore_failed
    cfg size require_guard_regions base0 iso store iso' :
  is_size_t cfg (reserved_address_space_ (memory_tracker iso)) ->
  TryAllocateBackingStore cfg size require_guard_regions base0 iso
  = Done (store, iso') ->
  memory store = nullptr ->
  let len := computed_allocation_length cfg size require_guard_regions in
  memory_tracker iso' = memory_tracker iso
  /\ (calls iso' = calls iso
      \/ (calls iso' = calls iso ++ [AllocatePages_called nullptr len kWasmPageSize]
          /\ hd nullptr (AllocatePages_answers iso) = nullptr)).
Proof.
  intros Hr Hrun Hnull len.
  rewrite TryAllocateBackingStore_eq in Hrun. cbn zeta in Hrun. fold len in Hrun.
  destruct (DEBUG cfg && negb (entry_dchecks cfg size require_guard_regions));
    [discriminate Hrun |].
  destruct (ReserveAddressSpace cfg len (memory_tracker iso))
    as [[[] t1] | why] eqn:Hres; [| | discriminate Hrun].
  - destruct (ReserveAddressSpace_accepted _ _ _ _ Hres) as (-> & _ & _).
    destruct (hd nullptr (AllocatePages_answers iso) =? nullptr) eqn:Hp.
    + destruct (ReleaseReservation cfg len _) as [[u t2] | why] eqn:Hrel;
        [| discriminate Hrun].
      apply ReleaseReservation_result in Hrel. subst t2.
      rewrite set_reserved_roundtrip in Hrun by exact Hr.
      apply Z.eqb_eq in Hp.
      inversion Hrun; subst; cbn. auto.
    + destruct (hd false (SetPermissions_answers iso)); [| discriminate Hrun].
      destruct (RegisterAllocation cfg _ len _ size _) as [[u t3] | why];
        [| discriminate Hrun].
      inversion Hrun; subst store; cbn in Hnull.
      apply Z.eqb_neq in Hp. contradiction.
  - rewrite (ReserveAddressSpace_rejected _ _ _ _ Hr Hres) in Hrun.
    inversion Hrun; subst; cbn. auto.
Qed.

(** X7. A failed [NewArrayBuffer] leaks nothing: whenever it returns the
    null handle, for whatever size and in every build, the tracker (both
    counters and the registry) is the one before the call, and the only
    call it may have made is one [AllocatePages] that was answered with
    [nullptr]. *)
Theorem NewArrayBuffer_failure_leaks_nothing
    cfg size require_guard_regions shared iso iso' :
  is_size_t cfg (reserved_address_space_ (memory_tracker iso)) ->
  NewArrayBuffer cfg size require_guard_regions shared iso = Done (None, iso') ->
  memory_tracker iso' = memory_tracker iso
  /\ (calls iso' = calls iso
      \/ (calls iso'
          = calls iso
            ++ [AllocatePages_called nullptr
                  (computed_allocation_length cfg size require_guard_regions)
                  kWasmPageSize]
          /\ hd nullptr (AllocatePages_answers iso) = nullptr)).
Proof.
  intros Hr Hrun. rewrite NewArrayBuffer_eq in Hrun.
  destruct ((size_t cfg (FLAG_wasm_max_mem_pages cfg * kWasmPageSize) <? size)
            || (kMaxInt <? size)).
  { inversion Hrun; subst. auto. }
  destruct (size =? 0).
  { destruct (SetupArrayBuffer cfg nullptr size false shared iso)
      as [[b i] | w]; discriminate Hrun. }
  destruct (TryAllocateBackingStore cfg size require_guard_regions nullptr iso)
    as [[store iso1] | why] eqn:Htry; [| discriminate Hrun].
  destruct ((0 <? size) && (memory store =? nullptr)) eqn:Hfail.
  - inversion Hrun; subst iso1.
    apply andb_true_iff in Hfail. destruct Hfail as [_ Hnull].
    apply Z.eqb_eq in Hnull.
    exact (TryAllocateBackingStore_failed _ _ _ _ _ _ _ Hr Htry Hnull).
  - destruct (SetupArrayBuffer cfg (memory store) size false shared iso1)
      as [[b i] | w]; discriminate Hrun.
Qed.

Lemma NewArrayBuffer_failure_leaks_nothing_witness :
  (is_size_t x64_debug (reserved_address_space_ (memory_tracker no_pages_isolate))
   /\ NewArrayBuffer x64_debug 100 false kNotShared no_pages_isolate
      = Done (None,
              {| memory_tracker := new_WasmMemoryTracker;
                 AllocatePages_answers := [];
                 SetPermissions_answers := [];
                 calls := [AllocatePages_called nullptr 0x10000 kWasmPageSize] |}))
  /\ memory_tracker
       {| memory_tracker := new_WasmMemoryTracker;
          AllocatePages_answers := [];
          SetPermissions_answers := [];
          calls := [AllocatePages_called nullptr 0x10000 kWasmPageSize] |}
     = memory_tracker no_pages_isolate.
Proof.
  assert (Hr : is_size_t x64_debug
                 (reserved_address_space_ (memory_tracker no_pages_isolate)))
    by (unfold is_size_t; cbn; lia).
  assert (Hrun : NewArrayBuffer x64_debug 100 false kNotShared no_pages_isolate
                 = Done (None,
                         {| memory_tracker := new_WasmMemoryTracker;
                            AllocatePages_answers := [];
                            SetPermissions_answers := [];
                            calls := [AllocatePages_called nullptr 0x10000
                                        kWasmPageSize] |}))
    by reflexivity.
  split; [auto |].
  exact (proj1 (NewArrayBuffer_failure_leaks_nothing x64_debug 100 false
                  kNotShared no_pages_isolate _ Hr Hrun)).
Defined.

Lemma emplace_lookup_is_Some k d (m : gmap Z AllocationData) :
  is_Some (emplace k d m !! k).
Proof.
  unfold emplace. destruct (m !! k) as [d' |] eqn:Hfind.
  - rewrite Hfind. eauto.
  - rewrite lookup_insert_eq. eauto.
Qed.

Lemma TryAllocateBackingStore_release_build_aborts
    cfg size require_guard_regions base0 iso why :
  DEBUG cfg = false ->
  TryAllocateBackingStore cfg size require_guard_regions base0 iso = Aborted why ->
  why = CHECK_failed
  /\ hd nullptr (AllocatePages_answers iso) <> nullptr
  /\ hd false (SetPermissions_answers iso) = false.
Proof.
  intros Hrelease Hrun.
  rewrite TryAllocateBackingStore_eq in Hrun. cbn zeta in Hrun.
  rewrite Hrelease in Hrun. cbn [andb] in Hrun.
  set (len := computed_allocation_length cfg size require_guard_regions) in *.
  destruct (ReserveAddressSpace cfg len (memory_tracker iso))
    as [[[] t1] | w] eqn:Hres.
  - destruct (hd nullptr (AllocatePages_answers iso) =? nullptr) eqn:Hp.
    + rewrite ReleaseReservation_eq in Hrun. cbn zeta in Hrun.
      rewrite Hrelease in Hrun. cbn [andb] in Hrun. discriminate Hrun.
    + apply Z.eqb_neq in Hp.
      destruct (hd false (SetPermissions_answers iso)) eqn:Hperm.
      * rewrite RegisterAllocation_eq in Hrun.
        rewrite Hrelease in Hrun. cbn [andb] in Hrun. discriminate Hrun.
      * inversion Hrun. auto.
  - discriminate Hrun.
  - rewrite ReserveAddressSpace_eq in Hres. cbn zeta in Hres.
    rewrite Hrelease in Hres. cbn [andb] in Hres.
    destruct (size_t cfg (reserved_address_space_ (memory_tracker iso) + len)
              <=? kAddressSpaceLimit cfg); discriminate Hres.
Qed.

(** X8. In a release build [NewArrayBuffer] stops the process for one
    reason only: the [CHECK] on [SetPermissions]. Whenever it aborts, the
    abort is a failed [CHECK], the size is not zero, [AllocatePages] had
    returned a non-null address and [SetPermissions] had returned false. *)
Theorem NewArrayBuffer_release_build_aborts
    cfg size require_guard_regions shared iso why :
  DEBUG cfg = false ->
  NewArrayBuffer cfg size require_guard_regions shared iso = Aborted why ->
  why = CHECK_failed
  /\ size <> 0
  /\ hd nullptr (AllocatePages_answers iso) <> nullptr
  /\ hd false (SetPermissions_answers iso) = false.
Proof.
  intros Hrelease Hrun. rewrite NewArrayBuffer_eq in Hrun.
  destruct ((size_t cfg (FLAG_wasm_max_mem_pages cfg * kWasmPageSize) <? size)
            || (kMaxInt <? size)); [discriminate Hrun |].
  destruct (size =? 0) eqn:Hzero.
  { rewrite SetupArrayBuffer_eq in Hrun. rewrite Hrelease in Hrun.
    cbn [andb] in Hrun. discriminate Hrun. }
  apply Z.eqb_neq in Hzero.
  destruct (TryAllocateBackingStore cfg size require_guard_regions nullptr iso)
    as [[store iso1] | w] eqn:Htry.
  - destruct ((0 <? size) && (memory store =? nullptr)); [discriminate Hrun |].
    rewrite SetupArrayBuffer_eq in Hrun. rewrite Hrelease in Hrun.
    cbn [andb] in Hrun. discriminate Hrun.
  - inversion Hrun; subst w.
    destruct (TryAllocateBackingStore_release_build_aborts _ _ _ _ _ _
                Hrelease Htry) as (Hwhy & Hp & Hperm).
    auto.
Qed.

Lemma NewArrayBuffer_release_build_aborts_witness :
  (DEBUG x64_release = false
   /\ NewArrayBuffer x64_release 100 false kNotShared no_permission_isolate
      = Aborted CHECK_failed)
  /\ hd false (SetPermissions_answers no_permission_isolate) = false.
Proof.
  assert (Hrelease : DEBUG x64_release = false) by reflexivity.
  assert (Hrun : NewArrayBuffer x64_release 100 false kNotShared
                   no_permission_isolate = Aborted CHECK_failed) by reflexivity.
  split; [auto |].
  exact (proj2 (proj2 (proj2 (NewArrayBuffer_release_build_aborts x64_release 100
                                false kNotShared no_permission_isolate _
                                Hrelease Hrun)))).
Defined.

(** X9. What a successful [NewArrayBuffer] guarantees: the buffer
    returned is not neuterable and is growable; the size is within
    [kMaxInt] and within the configured number of pages; for size zero the
    tracker is untouched; and for a positive size [AllocatePages] returned
    a non-null address and the registry tracks it afterwards
    ([IsWasmMemory] returns true for it). *)
Theorem NewArrayBuffer_success
    cfg size require_guard_regions shared iso buffer iso' :
  0 <= size ->
  is_size_t cfg (reserved_address_space_ (memory_tracker iso)) ->
  NewArrayBuffer cfg size require_guard_regions shared iso
  = Done (Some buffer, iso') ->
  is_neuterable buffer = false
  /\ is_growable buffer = true
  /\ size <= kMaxInt
  /\ size <= size_t cfg (FLAG_wasm_max_mem_pages cfg * kWasmPageSize)
  /\ (size = 0 -> memory_tracker iso' = memory_tracker iso)
  /\ (size <> 0 ->
      hd nullptr (AllocatePages_answers iso) <> nullptr
      /\ IsWasmMemory (hd nullptr (AllocatePages_answers iso)) (memory_tracker iso')
         = Done (true, memory_tracker iso')).
Proof.
  intros Hsize Hr Hrun. rewrite NewArrayBuffer_eq in Hrun.
  destruct ((size_t cfg (FLAG_wasm_max_mem_pages cfg * kWasmPageSize) <? size)
            || (kMaxInt <? size)) eqn:Hgate; [discriminate Hrun |].
  apply orb_false_iff in Hgate. destruct Hgate as [Hpages Hmax].
  apply Z.ltb_ge in Hpages, Hmax.
  destruct (size =? 0) eqn:Hzero.
  - apply Z.eqb_eq in Hzero.
    rewrite SetupArrayBuffer_eq in Hrun.
    destruct (DEBUG cfg && _); [discriminate Hrun |].
    inversion Hrun; subst buffer iso'. cbn.
    split; [reflexivity |]. split; [reflexivity |].
    split; [exact Hmax |]. split; [exact Hpages |].
    split; [intros _; reflexivity | intros Hne; contradiction].
  - apply Z.eqb_neq in Hzero.
    destruct (TryAllocateBackingStore cfg size require_guard_regions nullptr iso)
      as [[store iso1] | w] eqn:Htry; [| discriminate Hrun].
    assert (Hpos : (0 <? size) = true) by (apply Z.ltb_lt; lia).
    rewrite Hpos in Hrun. cbn [andb] in Hrun.
    destruct (memory store =? nullptr) eqn:Hnull; [discriminate Hrun |].
    apply Z.eqb_neq in Hnull.
    rewrite SetupArrayBuffer_eq in Hrun.
    destruct (DEBUG cfg && _); [discriminate Hrun |].
    inversion Hrun; subst buffer iso'. cbn.
    split; [reflexivity |]. split; [reflexivity |].
    split; [exact Hmax |]. split; [exact Hpages |].
    split; [intros Heq; contradiction |].
    intros _.
    destruct (TryAllocateBackingStore_tracker _ _ _ _ _ _ _ Hr Htry)
      as [[Hcontra _] | (_ & Hp & _ & _ & ->)]; [contradiction |].
    rewrite <- Hp. split; [exact Hnull |].
    unfold IsWasmMemory, gets. cbn.
    now rewrite (bool_decide_eq_true_2 _ (emplace_lookup_is_Some _ _ _)).
Qed.

Lemma NewArrayBuffer_success_witness :
  (0 <= 100
   /\ is_size_t x64_debug (reserved_address_space_ (memory_tracker fresh_isolate)))
  /\ exists buffer iso',
       NewArrayBuffer x64_debug 100 false kNotShared fresh_isolate
       = Done (Some buffer, iso')
       /\ is_neuterable buffer = false
       /\ is_growable buffer = true
       /\ IsWasmMemory 0x1000 (memory_tracker iso')
          = Done (true, memory_tracker iso').
Proof.
  assert (Hsize : 0 <= 100) by lia.
  assert (Hr : is_size_t x64_debug
                 (reserved_address_space_ (memory_tracker fresh_isolate)))
    by (unfold is_size_t; cbn; lia).
  split; [auto |].
  destruct (NewArrayBuffer x64_debug 100 false kNotShared fresh_isolate)
    as [[[buffer |] iso'] | w] eqn:Hrun;
    [| vm_compute in Hrun; discriminate Hrun
     | vm_compute in Hrun; discriminate Hrun].
  exists buffer, iso'. split; [reflexivity |].
  destruct (NewArrayBuffer_success x64_debug 100 false kNotShared fresh_isolate
              buffer iso' Hsize Hr Hrun)
    as (Hneut & Hgrow & _ & _ & _ & Htracked).
  split; [exact Hneut |]. split; [exact Hgrow |].
  apply Htracked. discriminate.
Defined.

(** ** The counters and the registry between calls *)

Lemma registry_bytes_empty : registry_bytes ∅ = 0.
Proof. unfold registry_bytes. apply map_fold_empty. Qed.

Lemma registry_bytes_insert (m : gmap Z AllocationData) k d :
  m !! k = None ->
  registry_bytes (<[k := d]> m) = allocation_length d + registry_bytes m.
Proof.
  intros Hfresh. unfold registry_bytes.
  apply (map_fold_insert_L (fun _ data total => allocation_length data + total));
    [intros; lia | exact Hfresh].
Qed.

Lemma registry_bytes_delete (m : gmap Z AllocationData) k d :
  m !! k = Some d ->
  registry_bytes m = allocation_length d + registry_bytes (delete k m).
Proof.
  intros Hfind. unfold registry_bytes.
  apply (map_fold_delete_L (fun _ data total => allocation_length data + total));
    [intros; lia | exact Hfind].
Qed.

Lemma registry_bytes_nonneg (m : gmap Z AllocationData) :
  map_Forall (fun _ data => 0 <= allocation_length data) m ->
  0 <= registry_bytes m.
Proof.
  induction m as [| k d m Hfresh _ IH] using map_first_key_ind.
  - intros _. rewrite registry_bytes_empty. lia.
  - intros Hall. rewrite registry_bytes_insert by exact Hfresh.
    apply map_Forall_insert in Hall; [| exact Hfresh].
    destruct Hall as [Hd Hm]. specialize (IH Hm). cbn in Hd. lia.
Qed.

(** A record of the registry is covered by the registry's bytes. *)
Lemma registry_bytes_covers (m : gmap Z AllocationData) k d :
  map_Forall (fun _ data => 0 <= allocation_length data) m ->
  m !! k = Some d ->
  0 <= allocation_length d <= registry_bytes m.
Proof.
  intros Hall Hfind.
  pose proof (Hall _ _ Hfind) as Hd. cbn in Hd.
  rewrite (registry_bytes_delete m k d Hfind).
  pose proof (registry_bytes_nonneg (delete k m) (map_Forall_delete _ _ _ Hall)).
  lia.
Qed.

Lemma computed_allocation_length_no_guard cfg size :
  0 <= computed_allocation_length cfg size false < 2 ^ 32.
Proof.
  unfold computed_allocation_length, RoundUpToPowerOfTwo32, uint32_t.
  set (y := power_of_two_from 32 1 _).
  assert (Hy : 0 <= wrap 32 y < 2 ^ 32)
    by (unfold wrap; apply Z.mod_pos_bound; lia).
  pose proof (size_t_is_size_t cfg (wrap 32 y)) as Hs. unfold is_size_t in Hs.
  assert (Hle : size_t cfg (wrap 32 y) <= wrap 32 y).
  { unfold size_t. unfold wrap at 1. apply Z.mod_le; [lia |].
    apply size_t_modulus_pos. }
  lia.
Qed.

(** In a build without wrap-around an accepted reservation of a computed
    length is an exact sum. *)
Lemma no_wraparound_build_fits cfg size require_guard_regions r :
  no_wraparound_build cfg ->
  0 <= r <= kAddressSpaceLimit cfg ->
  (DEBUG cfg = true ->
   r <= size_t cfg
          (r + computed_allocation_length cfg size require_guard_regions)) ->
  r + computed_allocation_length cfg size require_guard_regions
  < 2 ^ size_t_bits cfg.
Proof.
  intros Hbuild Hr Hfit.
  pose proof (computed_allocation_length_is_size_t cfg size require_guard_regions)
    as Hlen.
  assert (Hr' : is_size_t cfg r).
  { pose proof (kAddressSpaceLimit_is_size_t cfg). unfold is_size_t. lia. }
  destruct Hbuild as [Hdebug | [H64 Hguard]].
  - specialize (Hfit Hdebug). apply Z.leb_le in Hfit.
    rewrite (size_t_add_overflow cfg _ _ Hr' Hlen) in Hfit.
    now apply Z.ltb_lt in Hfit.
  - destruct require_guard_regions.
    + unfold guard_length_fits in Hguard.
      change (computed_allocation_length cfg size true)
        with (computed_allocation_length cfg 0 true).
      lia.
    + pose proof (computed_allocation_length_no_guard cfg size) as Hsmall.
      unfold kAddressSpaceLimit in Hr. unfold size_t_bits.
      rewrite H64 in *. lia.
Qed.

Lemma api_invariant_new cfg : api_invariant cfg new_WasmMemoryTracker.
Proof.
  pose proof (kAddressSpaceLimit_is_size_t cfg).
  split; [unfold ledger_invariant; cbn; lia |].
  split; [reflexivity |].
  split; [apply map_Forall_empty |].
  cbn. rewrite registry_bytes_empty. lia.
Qed.

Lemma TryAllocateBackingStore_keeps_api_invariant
    cfg size require_guard_regions base0 iso store iso' :
  no_wraparound_build cfg ->
  api_invariant cfg (memory_tracker iso) ->
  TryAllocateBackingStore cfg size require_guard_regions base0 iso
  = Done (store, iso') ->
  api_invariant cfg (memory_tracker iso').
Proof.
  intros Hbuild Hinv Hrun.
  destruct Hinv as (Hl & Heq & Hall & Hbytes).
  pose proof (ledger_invariant_reserved_is_size_t _ _ Hl) as Hr.
  pose proof (computed_allocation_length_is_size_t cfg size require_guard_regions)
    as Hlen.
  destruct (TryAllocateBackingStore_tracker _ _ _ _ _ _ _ Hr Hrun)
    as [[_ ->] | (_ & _ & Hle & Hfit & ->)].
  { exact (conj Hl (conj Heq (conj Hall Hbytes))). }
  destruct Hl as (H0 & Ha & Hcap).
  assert (Hsum : reserved_address_space_ (memory_tracker iso)
                 + computed_allocation_length cfg size require_guard_regions
                 < 2 ^ size_t_bits cfg).
  { apply no_wraparound_build_fits; [exact Hbuild | lia | exact Hfit]. }
  set (len := computed_allocation_length cfg size require_guard_regions) in *.
  unfold api_invariant, ledger_invariant; cbn.
  rewrite !size_t_small in * by (unfold is_size_t in *; lia).
  unfold is_size_t in *.
  split; [lia |]. split; [lia |].
  unfold emplace.
  destruct (allocations_ (memory_tracker iso) !! memory store) eqn:Hfind.
  - split; [exact Hall | lia].
  - split.
    + apply map_Forall_insert_2; [cbn; lia | exact Hall].
    + rewrite registry_bytes_insert by exact Hfind. cbn. lia.
Qed.

Lemma ReleaseAllocation_keeps_api_invariant cfg start t data t' :
  api_invariant cfg t ->
  ReleaseAllocation cfg start t = Done (data, t') ->
  api_invariant cfg t'.
Proof.
  intros (Hl & Heq & Hall & Hbytes) Hrun.
  pose proof (ledger_invariant_reserved_is_size_t _ _ Hl) as Hr.
  pose proof (ledger_invariant_allocated_is_size_t _ _ Hl) as Ha.
  destruct Hl as (H0 & Hle & Hcap).
  rewrite ReleaseAllocation_eq in Hrun.
  destruct (allocations_ t !! start) as [d |] eqn:Hfind; [| discriminate Hrun].
  cbn zeta in Hrun.
  destruct (DEBUG cfg && _); [discriminate Hrun |].
  inversion Hrun; subst data t'; clear Hrun.
  pose proof (registry_bytes_covers _ _ _ Hall Hfind) as Hd.
  pose proof (registry_bytes_delete _ _ _ Hfind) as Hdel.
  unfold api_invariant, ledger_invariant; cbn.
  rewrite !size_t_small by (unfold is_size_t in *; lia).
  split; [lia |]. split; [lia |].
  split; [now apply map_Forall_delete | lia].
Qed.

Lemma NewArrayBuffer_tracker cfg size require_guard_regions shared iso handle iso' :
  NewArrayBuffer cfg size require_guard_regions shared iso = Done (handle, iso') ->
  memory_tracker iso' = memory_tracker iso
  \/ exists store iso1,
       TryAllocateBackingStore cfg size require_guard_regions nullptr iso
       = Done (store, iso1)
       /\ memory_tracker iso' = memory_tracker iso1.
Proof.
  intros Hrun. rewrite NewArrayBuffer_eq in Hrun.
  destruct ((size_t cfg (FLAG_wasm_max_mem_pages cfg * kWasmPageSize) <? size)
            || (kMaxInt <? size)).
  { inversion Hrun. auto. }
  destruct (size =? 0).
  { rewrite SetupArrayBuffer_eq in Hrun.
    destruct (DEBUG cfg && _); [discriminate Hrun |].
    inversion Hrun. auto. }
  destruct (TryAllocateBackingStore cfg size require_guard_regions nullptr iso)
    as [[store iso1] | w]; [| discriminate Hrun].
  right. exists store, iso1. split; [reflexivity |].
  destruct ((0 <? size) && (memory store =? nullptr)).
  - now inversion Hrun.
  - rewrite SetupArrayBuffer_eq in Hrun.
    destruct (DEBUG cfg && _); [discriminate Hrun |].
    now inversion Hrun.
Qed.

Lemma api_reachable_invariant cfg iso :
  no_wraparound_build cfg ->
  api_reachable cfg iso ->
  api_invariant cfg (memory_tracker iso).
Proof.
  intros Hbuild Hreach.
  induction Hreach as [iso Hnew | iso c iso' Hreach IH Hrun].
  - rewrite Hnew. apply api_invariant_new.
  - destruct c as [size guard shared | size guard base0 | start];
      unfold api_perform, bind, ret in Hrun.
    + destruct (NewArrayBuffer cfg size guard shared iso)
        as [[handle iso1] | w] eqn:Hcall; [| discriminate Hrun].
      inversion Hrun; subst iso1.
      destruct (NewArrayBuffer_tracker _ _ _ _ _ _ _ Hcall)
        as [-> | (store & iso1 & Htry & ->)]; [exact IH |].
      exact (TryAllocateBackingStore_keeps_api_invariant _ _ _ _ _ _ _
               Hbuild IH Htry).
    + destruct (TryAllocateBackingStore cfg size guard base0 iso)
        as [[store iso1] | w] eqn:Hcall; [| discriminate Hrun].
      inversion Hrun; subst iso1.
      exact (TryAllocateBackingStore_keeps_api_invariant _ _ _ _ _ _ _
               Hbuild IH Hcall).
    + unfold on_tracker in Hrun.
      destruct (ReleaseAllocation cfg start (memory_tracker iso))
        as [[data t'] | w] eqn:Hcall; [| discriminate Hrun].
      inversion Hrun; subst iso'. cbn.
      exact (ReleaseAllocation_keeps_api_invariant _ _ _ _ _ IH Hcall).
Qed.

(** X10. Between calls of [NewArrayBuffer], [TryAllocateBackingStore] and
    [ReleaseAllocation], starting from a fresh tracker and whatever the
    page allocator answers, the two counters are equal, they are within
    the limit, and they cover the registry: the lengths of the records sum
    to at most [allocated_address_space_], so no record is longer than
    either counter. This holds in every debug build and in every 64-bit
    build. *)
Theorem api_reachable_counters cfg iso :
  no_wraparound_build cfg ->
  api_reachable cfg iso ->
  reserved_address_space_ (memory_tracker iso)
  = allocated_address_space_ (memory_tracker iso)
  /\ 0 <= allocated_address_space_ (memory_tracker iso) <= kAddressSpaceLimit cfg
  /\ registry_bytes (allocations_ (memory_tracker iso))
     <= allocated_address_space_ (memory_tracker iso)
  /\ (forall start data,
        allocations_ (memory_tracker iso) !! start = Some data ->
        0 <= allocation_length data
          <= allocated_address_space_ (memory_tracker iso)).
Proof.
  intros Hbuild Hreach.
  destruct (api_reachable_invariant cfg iso Hbuild Hreach)
    as ((H0 & Hle & Hcap) & Heq & Hall & Hbytes).
  split; [exact Heq |]. split; [lia |]. split; [exact Hbytes |].
  intros start data Hfind.
  pose proof (registry_bytes_covers _ _ _ Hall Hfind). lia.
Qed.

Lemma x64_release_no_wraparound : no_wraparound_build x64_release.
Proof. right. split; [reflexivity |]. vm_compute. reflexivity. Qed.

Lemma one_page_isolate_api_reachable : api_reachable x64_release one_page_isolate.
Proof.
  eapply api_reachable_call
    with (iso := fresh_isolate)
         (c := Api_TryAllocateBackingStore 100 false nullptr).
  - now apply api_reachable_start.
  - reflexivity.
Qed.

Lemma api_reachable_counters_witness :
  (no_wraparound_build x64_release /\ api_reachable x64_release one_page_isolate)
  /\ reserved_address_space_ (memory_tracker one_page_isolate)
     = allocated_address_space_ (memory_tracker one_page_isolate)
  /\ registry_bytes (allocations_ (memory_tracker one_page_isolate))
     <= allocated_address_space_ (memory_tracker one_page_isolate).
Proof.
  split; [split; [exact x64_release_no_wraparound
                 | exact one_page_isolate_api_reachable] |].
  destruct (api_reachable_counters x64_release one_page_isolate
              x64_release_no_wraparound one_page_isolate_api_reachable)
    as (Heq & _ & Hbytes & _).
  split; [exact Heq | exact Hbytes].
Defined.

(** X11. After any such sequence of calls, [ReleaseAllocation] of a key of
    the registry never trips its [DCHECK]s and never wraps a counter: in
    every debug build and every 64-bit build it returns the record,
    erases it, and both counters go down by exactly the record's
    length. *)
Theorem api_reachable_release_completes cfg iso start data :
  no_wraparound_build cfg ->
  api_reachable cfg iso ->
  allocations_ (memory_tracker iso) !! start = Some data ->
  ReleaseAllocation cfg start (memory_tracker iso)
  = Done (data,
          {| reserved_address_space_ :=
               reserved_address_space_ (memory_tracker iso)
               - allocation_length data;
             allocated_address_space_ :=
               allocated_address_space_ (memory_tracker iso)
               - allocation_length data;
             allocations_ := delete start (allocations_ (memory_tracker iso)) |})
  /\ 0 <= allocated_address_space_ (memory_tracker iso) - allocation_length data.
Proof.
  intros Hbuild Hreach Hfind.
  destruct (api_reachable_invariant cfg iso Hbuild Hreach)
    as (Hl & Heq & Hall & Hbytes).
  pose proof (ledger_invariant_reserved_is_size_t _ _ Hl) as Hr.
  pose proof (ledger_invariant_allocated_is_size_t _ _ Hl) as Ha.
  pose proof (registry_bytes_covers _ _ _ Hall Hfind) as Hd.
  split; [| lia].
  rewrite ReleaseAllocation_eq, Hfind. cbn zeta.
  assert (H1 : (allocation_length data
                <=? reserved_address_space_ (memory_tracker iso)) = true)
    by (apply Z.leb_le; lia).
  assert (H2 : (allocation_length data
                <=? allocated_address_space_ (memory_tracker iso)) = true)
    by (apply Z.leb_le; lia).
  rewrite H1, H2. cbn [andb negb]. rewrite andb_false_r.
  unfold set_allocations, set_allocated, set_reserved. cbn.
  rewrite !size_t_small by (unfold is_size_t in *; lia).
  reflexivity.
Qed.

Lemma api_reachable_release_completes_witness :
  (no_wraparound_build x64_release
   /\ api_reachable x64_release one_page_isolate
   /\ allocations_ (memory_tracker one_page_isolate) !! 0x1000
      = Some one_page_record)
  /\ ReleaseAllocation x64_release 0x1000 (memory_tracker one_page_isolate)
     = Done (one_page_record,
             {| reserved_address_space_ := 0x10000 - 0x10000;
                allocated_address_space_ := 0x10000 - 0x10000;
                allocations_ := delete 0x1000 {[ 0x1000 := one_page_record ]} |}).
Proof.
  assert (Hfind : allocations_ (memory_tracker one_page_isolate) !! 0x1000
                  = Some one_page_record) by reflexivity.
  split; [split; [exact x64_release_no_wraparound
                 | split; [exact one_page_isolate_api_reachable | exact Hfind]] |].
  exact (proj1 (api_reachable_release_completes x64_release one_page_isolate
                  0x1000 one_page_record x64_release_no_wraparound
                  one_page_isolate_api_reachable Hfind)).
Defined.

(** ** [DetachMemoryBuffer] without freeing *)

Lemma DetachMemoryBuffer_without_free_eq FreeBackingStore cfg buffer iso :
  DetachMemoryBuffer FreeBackingStore cfg buffer false iso =
  if is_shared buffer then Done (buffer, iso)
  else if DEBUG cfg && is_neuterable buffer then Aborted DCHECK_failed
  else Done (Neuter (set_is_neuterable true (set_is_external true buffer)),
             if is_external buffer then iso
             else record_call
                    (UnregisterArrayBuffer_called (backing_store buffer)) iso).
Proof.
  unfold DetachMemoryBuffer, DCHECK, bind, ret, modify, abort.
  destruct buffer as [store len ext sh neut grow wasm]; cbn.
  destruct sh; [reflexivity |].
  destruct (DEBUG cfg); cbn.
  - destruct neut; cbn; [reflexivity |]. now destruct ext.
  - now destruct ext.
Qed.

(** X12. [DetachMemoryBuffer] with [free_memory] false never touches the
    tracker or the page allocator and never calls [FreeBackingStore],
    whatever that function is. A shared buffer comes back as it is; any
    other buffer (not yet neuterable, as the debug build asks) is marked
    external and neuterable and then neutered, and the only call made is
    [UnregisterArrayBuffer], once, when the buffer was not external
    before. *)
Theorem DetachMemoryBuffer_without_free FreeBackingStore cfg buffer iso :
  (DEBUG cfg = true -> is_shared buffer = false ->
   is_neuterable buffer = false) ->
  exists buffer' iso',
    DetachMemoryBuffer FreeBackingStore cfg buffer false iso
    = Done (buffer', iso')
    /\ memory_tracker iso' = memory_tracker iso
    /\ AllocatePages_answers iso' = AllocatePages_answers iso
    /\ (is_shared buffer = true -> buffer' = buffer /\ iso' = iso)
    /\ (is_shared buffer = false ->
        buffer' = Neuter (set_is_neuterable true (set_is_external true buffer))
        /\ calls iso'
           = if is_external buffer then calls iso
             else calls iso
                  ++ [UnregisterArrayBuffer_called (backing_store buffer)]).
Proof.
  intros Hpre. rewrite DetachMemoryBuffer_without_free_eq.
  destruct (is_shared buffer) eqn:Hshared.
  - exists buffer, iso. split; [reflexivity |].
    split; [reflexivity |]. split; [reflexivity |].
    split; [auto | discriminate].
  - assert (Hguard : DEBUG cfg && is_neuterable buffer = false).
    { destruct (DEBUG cfg); [| reflexivity]. cbn. now apply Hpre. }
    rewrite Hguard. eexists. eexists. split; [reflexivity |].
    destruct (is_external buffer); cbn;
      (split; [reflexivity |]); (split; [reflexivity |]);
      (split; [discriminate | auto]).
Qed.

Lemma DetachMemoryBuffer_without_free_witness :
  (DEBUG x64_debug = true -> is_shared external_buffer = false ->
   is_neuterable external_buffer = false)
  /\ exists buffer' iso',
       DetachMemoryBuffer FreeBackingStore_never x64_debug external_buffer false
         one_page_isolate = Done (buffer', iso')
       /\ memory_tracker iso' = memory_tracker one_page_isolate
       /\ calls iso' = calls one_page_isolate.
Proof.
  assert (Hpre : DEBUG x64_debug = true -> is_shared external_buffer = false ->
                 is_neuterable external_buffer = false) by reflexivity.
  split; [exact Hpre |].
  destruct (DetachMemoryBuffer_without_free FreeBackingStore_never x64_debug
              external_buffer one_page_isolate Hpre)
    as (buffer' & iso' & Hrun & Htracker & _ & _ & Hprivate).
  exists buffer', iso'. split; [exact Hrun |]. split; [exact Htracker |].
  exact (proj2 (Hprivate eq_refl)).
Defined.

Lemma NewArrayBuffer_not_neuterable
    cfg size require_guard_regions shared iso buffer iso' :
  NewArrayBuffer cfg size require_guard_regions shared iso
  = Done (Some buffer, iso') ->
  is_neuterable buffer = false.
Proof.
  intros Hrun. rewrite NewArrayBuffer_eq in Hrun.
  destruct ((size_t cfg (FLAG_wasm_max_mem_pages cfg * kWasmPageSize) <? size)
            || (kMaxInt <? size)); [discriminate Hrun |].
  destruct (size =? 0).
  { rewrite SetupArrayBuffer_eq in Hrun.
    destruct (DEBUG cfg && _); [discriminate Hrun |].
    now inversion Hrun. }
  destruct (TryAllocateBackingStore cfg size require_guard_regions nullptr iso)
    as [[store iso1] | w]; [| discriminate Hrun].
  destruct ((0 <? size) && (memory store =? nullptr)); [discriminate Hrun |].
  rewrite SetupArrayBuffer_eq in Hrun.
  destruct (DEBUG cfg && _); [discriminate Hrun |].
  now inversion Hrun.
Qed.

(** X13. A buffer made by [NewArrayBuffer] can always be detached: in
    every build, [DetachMemoryBuffer] with [free_memory] false on a buffer
    [NewArrayBuffer] returned passes its [DCHECK]s and returns, in
    whatever isolate it is run, and leaves that isolate's tracker as it
    is. (What [SetupArrayBuffer] sets, not neuterable, is what
    [DetachMemoryBuffer] asks for.) *)
Theorem NewArrayBuffer_then_detach
    FreeBackingStore cfg size require_guard_regions shared iso buffer iso1 iso2 :
  NewArrayBuffer cfg size require_guard_regions shared iso
  = Done (Some buffer, iso1) ->
  exists buffer' iso',
    DetachMemoryBuffer FreeBackingStore cfg buffer false iso2
    = Done (buffer', iso')
    /\ memory_tracker iso' = memory_tracker iso2.
Proof.
  intros Hrun.
  pose proof (NewArrayBuffer_not_neuterable _ _ _ _ _ _ _ Hrun) as Hneut.
  rewrite DetachMemoryBuffer_without_free_eq, Hneut, andb_false_r.
  destruct (is_shared buffer); [eauto |].
  eexists. eexists. split; [reflexivity |].
  now destruct (is_external buffer).
Qed.

Lemma NewArrayBuffer_then_detach_witness :
  exists buffer iso1,
    NewArrayBuffer x64_debug 100 false kNotShared fresh_isolate
    = Done (Some buffer, iso1)
    /\ exists buffer' iso',
         DetachMemoryBuffer FreeBackingStore_never x64_debug buffer false iso1
         = Done (buffer', iso')
         /\ memory_tracker iso' = memory_tracker iso1.
Proof.
  destruct (NewArrayBuffer x64_debug 100 false kNotShared fresh_isolate)
    as [[[buffer |] iso1] | w] eqn:Hrun;
    [| vm_compute in Hrun; discriminate Hrun
     | vm_compute in Hrun; discriminate Hrun].
  exists buffer, iso1. split; [reflexivity |].
  exact (NewArrayBuffer_then_detach FreeBackingStore_never x64_debug 100 false
           kNotShared fresh_isolate buffer iso1 iso1 Hrun).
Defined.

(** ** The destructor *)

Lemma WasmMemoryTracker_destructor_eq cfg t :
  WasmMemoryTracker_destructor cfg t =
  if DEBUG cfg
     && negb ((reserved_address_space_ t =? 0)
              && (allocated_address_space_ t =? 0))
  then Aborted DCHECK_failed
  else Done (tt, t).
Proof.
  unfold WasmMemoryTracker_destructor, DCHECK, bind, gets, ret, abort.
  destruct (DEBUG cfg); cbn; [| reflexivity].
  destruct (reserved_address_space_ t =? 0); cbn; [| reflexivity].
  now destruct (allocated_address_space_ t =? 0).
Qed.

(** X14. When the tracker may be destroyed: after any sequence of calls of
    [NewArrayBuffer], [TryAllocateBackingStore] and [ReleaseAllocation]
    (in a debug or a 64-bit build), the destructor's [DCHECK]s pass exactly
    when [reserved_address_space_] is back to zero, and then every record
    still in the registry has length zero. *)
Theorem destructor_after_api_calls cfg iso :
  no_wraparound_build cfg ->
  api_reachable cfg iso ->
  (WasmMemoryTracker_destructor (debug_build cfg) (memory_tracker iso)
   = Done (tt, memory_tracker iso)
   <-> reserved_address_space_ (memory_tracker iso) = 0)
  /\ (reserved_address_space_ (memory_tracker iso) = 0 ->
      forall start data,
        allocations_ (memory_tracker iso) !! start = Some data ->
        allocation_length data = 0).
Proof.
  intros Hbuild Hreach.
  destruct (api_reachable_invariant cfg iso Hbuild Hreach)
    as ((H0 & Hle & Hcap) & Heq & Hall & Hbytes).
  split.
  - rewrite WasmMemoryTracker_destructor_eq.
    change (DEBUG (debug_build cfg)) with true. cbn [andb].
    split.
    + destruct (reserved_address_space_ (memory_tracker iso) =? 0) eqn:Hzero;
        cbn; [intros _; now apply Z.eqb_eq | discriminate].
    + intros Hzero. rewrite <- Heq, Hzero. reflexivity.
  - intros Hzero start data Hfind.
    pose proof (registry_bytes_covers _ _ _ Hall Hfind). lia.
Qed.

Lemma destructor_after_api_calls_witness :
  (no_wraparound_build x64_release /\ api_reachable x64_release one_page_isolate)
  /\ (WasmMemoryTracker_destructor (debug_build x64_release)
        (memory_tracker one_page_isolate)
      = Done (tt, memory_tracker one_page_isolate)
      <-> reserved_address_space_ (memory_tracker one_page_isolate) = 0).
Proof.
  split; [split; [exact x64_release_no_wraparound
                 | exact one_page_isolate_api_reachable] |].
  exact (proj1 (destructor_after_api_calls x64_release one_page_isolate
                  x64_release_no_wraparound one_page_isolate_api_reachable)).
Defined.

(** ** How records are keyed *)

Lemma TryAllocateBackingStore_registry
    cfg size require_guard_regions base0 iso store iso' :
  TryAllocateBackingStore cfg size require_guard_regions base0 iso
  = Done (store, iso') ->
  allocations_ (memory_tracker iso') = allocations_ (memory_tracker iso)
  \/ exists p len,
       allocations_ (memory_tracker iso')
       = emplace p {| allocation_base := p;
                      allocation_length := len;
                      buffer_start := p;
                      buffer_length := size |}
           (allocations_ (memory_tracker iso)).
Proof.
  intros Hrun. rewrite TryAllocateBackingStore_eq in Hrun. cbn zeta in Hrun.
  set (len := computed_allocation_length cfg size require_guard_regions) in *.
  destruct (DEBUG cfg && negb (entry_dchecks cfg size require_guard_regions));
    [discriminate Hrun |].
  destruct (ReserveAddressSpace cfg len (memory_tracker iso))
    as [[accepted t1] | why] eqn:Hres; [| discriminate Hrun].
  assert (Hsame : allocations_ t1 = allocations_ (memory_tracker iso)).
  { rewrite ReserveAddressSpace_eq in Hres. cbn zeta in Hres.
    destruct (DEBUG cfg && _); [discriminate Hres |].
    destruct (size_t cfg (reserved_address_space_ (memory_tracker iso) + len)
              <=? kAddressSpaceLimit cfg); now inversion Hres. }
  destruct accepted.
  - destruct (hd nullptr (AllocatePages_answers iso) =? nullptr).
    + destruct (ReleaseReservation cfg len t1) as [[u t2] | why] eqn:Hrel;
        [| discriminate Hrun].
      apply ReleaseReservation_result in Hrel. subst t2.
      inversion Hrun; subst; cbn. left. exact Hsame.
    + destruct (hd false (SetPermissions_answers iso)); [| discriminate Hrun].
      destruct (RegisterAllocation cfg _ len _ size t1) as [[u t3] | why] eqn:Hreg;
        [| discriminate Hrun].
      destruct (RegisterAllocation_completed _ _ _ _ _ _ _ _ Hreg) as (-> & _).
      inversion Hrun; subst; cbn. right.
      exists (hd nullptr (AllocatePages_answers iso)), len.
      now rewrite Hsame.
  - inversion Hrun; subst; cbn. left. exact Hsame.
Qed.

Lemma api_reachable_keys cfg iso :
  api_reachable cfg iso ->
  map_Forall (fun start data =>
                buffer_start data = start /\ allocation_base data = start)
    (allocations_ (memory_tracker iso)).
Proof.
  induction 1 as [iso Hnew | iso c iso' Hreach IH Hrun].
  - rewrite Hnew. apply map_Forall_empty.
  - assert (Hemplace :
              forall p len size,
                map_Forall (fun start data =>
                              buffer_start data = start
                              /\ allocation_base data = start)
                  (emplace p {| allocation_base := p;
                                allocation_length := len;
                                buffer_start := p;
                                buffer_length := size |}
                     (allocations_ (memory_tracker iso)))).
    { intros p len size. unfold emplace.
      destruct (allocations_ (memory_tracker iso) !! p); [exact IH |].
      apply map_Forall_insert_2; [now cbn | exact IH]. }
    destruct c as [size guard shared | size guard base0 | start];
      unfold api_perform, bind, ret in Hrun.
    + destruct (NewArrayBuffer cfg size guard shared iso)
        as [[handle iso1] | w] eqn:Hcall; [| discriminate Hrun].
      inversion Hrun; subst iso1.
      destruct (NewArrayBuffer_tracker _ _ _ _ _ _ _ Hcall)
        as [-> | (store & iso1 & Htry & ->)]; [exact IH |].
      destruct (TryAllocateBackingStore_registry _ _ _ _ _ _ _ Htry)
        as [-> | (p & len & ->)]; [exact IH | apply Hemplace].
    + destruct (TryAllocateBackingStore cfg size guard base0 iso)
        as [[store iso1] | w] eqn:Hcall; [| discriminate Hrun].
      inversion Hrun; subst iso1.
      destruct (TryAllocateBackingStore_registry _ _ _ _ _ _ _ Hcall)
        as [-> | (p & len & ->)]; [exact IH | apply Hemplace].
    + unfold on_tracker in Hrun.
      destruct (ReleaseAllocation cfg start (memory_tracker iso))
        as [[data t'] | w] eqn:Hcall; [| discriminate Hrun].
      inversion Hrun; subst iso'. cbn.
      rewrite ReleaseAllocation_eq in Hcall.
      destruct (allocations_ (memory_tracker iso) !! start); [| discriminate Hcall].
      cbn zeta in Hcall.
      destruct (DEBUG cfg && _); [discriminate Hcall |].
      inversion Hcall; subst; cbn. now apply map_Forall_delete.
Qed.

Lemma reachable_keys cfg t :
  reachable cfg t ->
  map_Forall (fun start data => buffer_start data = start) (allocations_ t).
Proof.
  induction 1 as [| t c t' Hreach IH Hty Hpre Hrun].
  - apply map_Forall_empty.
  - destruct c as [n | n | base len start buf_len | start];
      unfold perform, bind, ret in Hrun.
    + rewrite ReserveAddressSpace_eq in Hrun. cbn zeta in Hrun.
      destruct (DEBUG cfg && _); [discriminate Hrun |].
      destruct (size_t cfg (reserved_address_space_ t + n) <=? kAddressSpaceLimit cfg);
        now inversion Hrun.
    + apply ReleaseReservation_result in Hrun. now subst t'.
    + destruct (RegisterAllocation_completed _ _ _ _ _ _ _ _ Hrun) as (-> & _).
      cbn. unfold emplace.
      destruct (allocations_ t !! start); [exact IH |].
      apply map_Forall_insert_2; [reflexivity | exact IH].
    + rewrite ReleaseAllocation_eq in Hrun.
      destruct (allocations_ t !! start); [| discriminate Hrun].
      cbn zeta in Hrun.
      destruct (DEBUG cfg && _); [discriminate Hrun |].
      inversion Hrun; subst; cbn. now apply map_Forall_delete.
Qed.

(** X15. Every record is filed under its own [buffer_start]: in every
    tracker reached by calls of the four tracker operations, the record
    found under a key has that key as [buffer_start]; and in every isolate
    reached by calls of [NewArrayBuffer], [TryAllocateBackingStore] and
    [ReleaseAllocation], its [allocation_base] is that same address too. *)
Theorem records_keyed_by_buffer_start cfg :
  (forall t start data,
     reachable cfg t ->
     FindAllocationData start t = Done (Some data, t) ->
     buffer_start data = start)
  /\ (forall iso start data,
        api_reachable cfg iso ->
        FindAllocationData start (memory_tracker iso)
        = Done (Some data, memory_tracker iso) ->
        buffer_start data = start /\ allocation_base data = start).
Proof.
  split.
  - intros t start data Hreach Hfind.
    unfold FindAllocationData, gets in Hfind. inversion Hfind as [Hlookup].
    exact (reachable_keys cfg t Hreach _ _ Hlookup).
  - intros iso start data Hreach Hfind.
    unfold FindAllocationData, gets in Hfind. inversion Hfind as [Hlookup].
    exact (api_reachable_keys cfg iso Hreach _ _ Hlookup).
Qed.

Lemma records_keyed_by_buffer_start_witness :
  (reachable x64_release one_page_tracker
   /\ FindAllocationData 0x1000 one_page_tracker
      = Done (Some one_page_record, one_page_tracker)
   /\ buffer_start one_page_record = 0x1000)
  /\ (api_reachable x64_release one_page_isolate
      /\ FindAllocationData 0x1000 (memory_tracker one_page_isolate)
         = Done (Some one_page_record, memory_tracker one_page_isolate)
      /\ buffer_start one_page_record = 0x1000
      /\ allocation_base one_page_record = 0x1000).
Proof.
  assert (Hfind : FindAllocationData 0x1000 one_page_tracker
                  = Done (Some one_page_record, one_page_tracker))
    by reflexivity.
  split.
  - split; [exact one_page_tracker_reachable |]. split; [exact Hfind |].
    exact (proj1 (records_keyed_by_buffer_start x64_release)
             one_page_tracker 0x1000 one_page_record
             one_page_tracker_reachable Hfind).
  - split; [exact one_page_isolate_api_reachable |]. split; [exact Hfind |].
    exact (proj2 (records_keyed_by_buffer_start x64_release)
             one_page_isolate 0x1000 one_page_record
             one_page_isolate_api_reachable Hfind).
Defined.
